(** * jest-runtime: the sandboxed module loader and mocking engine

    A shallow embedding of [packages/jest-runtime/src/index.js] (class
    [Runtime]) and the properties of its loader, mock policy, automock
    isolation, coverage gate and per-file [jest] object.

    The runtime is stateful and re-entrant: a module body calls [require]
    while it is being executed.  The embedding threads an explicit [State]
    through a small state-and-exception monad, keeps JavaScript objects,
    module records and the two registries in stores addressed by location
    (so that aliasing and reference identity are visible), and represents
    the code of a module body or of a mock factory by a finite command tree
    [Prog] whose only way into the runtime is the per-file [require] and
    [jest] object, as in the source. *)

From Stdlib Require Import Ascii String.
From stdpp Require Import gmap strings list.

Set Default Proof Using "Type".

(** ** JavaScript values *)

Definition loc := nat.

(** Objects and functions are both references into the heap. *)
Inductive value :=
| VUndefined
| VNull
| VBool (b : bool)
| VNum (n : Z)
| VStr (s : string)
| VObj (l : loc).

(** An object is the finite map of its own properties. *)
Abbreviation Obj := (gmap string value).
Abbreviation Heap := (gmap loc (gmap string value)).

Definition truthy_str (s : string) : bool := negb (String.eqb s "").

Definition truthy (v : value) : bool :=
  match v with
  | VUndefined | VNull => false
  | VBool b => b
  | VNum n => negb (Z.eqb n 0)
  | VStr s => truthy_str s
  | VObj _ => true
  end.

(** [a && b], [a || b] and [!a] on values. *)
Definition js_and (a b : value) : value := if truthy a then b else a.
Definition js_or (a b : value) : value := if truthy a then a else b.
Definition js_not (a : value) : value := VBool (negb (truthy a)).

(** A [?string]: [None] is [null]/[undefined]. *)
Definition truthy_opt (o : option string) : bool :=
  match o with
  | Some s => truthy_str s
  | None => false
  end.

(** [o || ''] *)
Definition or_empty (o : option string) : string :=
  match o with
  | Some s => if truthy_str s then s else ""
  | None => ""
  end.

(** [s.includes(needle)] *)
Fixpoint includes (needle s : string) : bool :=
  if String.prefix needle s then true
  else match s with
       | EmptyString => false
       | String _ s' => includes needle s'
       end.

(** Thrown values: an error object with its constructor name and message. *)
Record error := JsError { error_name : string; error_message : string }.

Inductive result (A : Type) :=
| Ok (a : A)
| Fail (e : error).
Arguments Ok {A} a.
Arguments Fail {A} e.

(** A compiled [RegExp] is represented by its [test] method. *)
Abbreviation RegExp := (string → bool).

(** The host [path] module (POSIX). *)
Definition path_sep : string := "/".
Definition path_delimiter : string := ":".

(** [const NODE_MODULES = path.sep + 'node_modules' + path.sep] *)
Definition NODE_MODULES : string := path_sep +:+ "node_modules" +:+ path_sep.

(** ** Configuration and external collaborators *)

Record Config := {
  automock : bool;
  collectCoverage : bool;
  (* [?{[key: string]: boolean}]; [None] when no allow-list is configured *)
  collectCoverageOnlyFrom : option (gmap string bool);
  setupFiles : list string;
  rootDir : string;
  scriptPreprocessor : option string;
  usesBabelJest : bool;
}.

(** The resolver contract ([jest-resolve]). *)
Record Resolver := {
  resolveModule : string → string → result string;
  getModule : string → option string;
  getMockModule : string → option string;
  isCoreModule : string → bool;
  getModulePaths : string → list string;
}.

(** A finite description of a value that is built afresh: what [JSON.parse]
    builds from a file's text, and what [moduleMocker.generateFromMetadata]
    builds from metadata.  [ShFunction] is a mock function. *)
#[warnings="-register-all"]
Inductive Shape :=
| ShConst (v : value)
| ShFunction
| ShObject (members : list (string * Shape)).

Abbreviation Metadata := Shape.

Inductive RequireMode := ReqAuto | ReqMock | ReqActual.

Inductive TimerMethod :=
| UseFakeTimers
| UseRealTimers
| ClearAllTimers
| RunAllTicks
| RunAllImmediates
| RunAllTimers
| RunOnlyPendingTimers.

(** User code: the body of a module wrapper or of a mock factory.  It is a
    finite tree of the operations user code can perform on what the wrapper
    is called with ([module], [exports], [require], [global], [jest]); each
    continuation receives the operation's result. *)
Inductive Prog :=
| PRet (v : value)
| PThrow (e : error)
| PTry (body : Prog) (handler : error → Prog) (k : value → Prog)
    (* [require(name)], [require.requireMock(name)], [require.requireActual(name)] *)
| PRequire (mode : RequireMode) (moduleName : string) (k : value → Prog)
    (* the [exports] argument *)
| PExports (k : value → Prog)
    (* [module.exports] and [module.exports = v] *)
| PModuleExports (k : value → Prog)
| PSetModuleExports (v : value) (k : Prog)
    (* the [global] argument *)
| PGlobal (k : value → Prog)
    (* [{}], [o[key]], [o[key] = v] *)
| PNew (k : value → Prog)
| PGet (o : value) (key : string) (k : value → Prog)
| PSet (o : value) (key : string) (v : value) (k : Prog)
    (* a method of the [jest] argument *)
| PJest (c : JestCall) (k : value → Prog)
with JestCall :=
| EnableAutomock
| DisableAutomock
| Mock (moduleName : string) (mockFactory : option Prog) (virtual : bool)
| SetMock (moduleName : string) (mock : value)
| Unmock (moduleName : string)
| DeepUnmock (moduleName : string)
| ResetModuleRegistry
| GenMockFromModule (moduleName : string)
| Timer (m : TimerMethod).

(** What evaluating a transformed script in the sandbox yields: the wrapper
    function, or an exception. *)
Record Script := { script_eval : result Prog }.

(** The collaborators the runtime is constructed with or requires, and the
    fields of [Runtime] that are assigned once by the constructor. *)
Record World := {
  config : Config;
  resolver : Resolver;
  (* compiled by the constructor from the configured patterns *)
  _coverageRegex : RegExp;
  _mocksPattern : option RegExp;
  _testRegex : RegExp;
  _unmockList : option RegExp;
  (* require('./transform') *)
  transform : string → bool → result Script;
  (* the host's own [require], for built-in and [.node] modules *)
  hostRequire : string → result value;
  (* [JSON.parse(fs.readFileSync(path, 'utf8'))] *)
  readJSON : string → result Shape;
  fs_existsSync : string → bool;
  (* the host [path] module *)
  path_dirname : string → string;
  path_basename : string → string;
  path_extname : string → string;
  path_normalize : string → string;
  path_join3 : string → string → string → string;
  path_relative : string → string → string;
  (* require('jest-mock') *)
  getMetadata : Heap → value → option Metadata;
  (* methods of the environment: fake timers and mock-function reset *)
  fakeTimers : TimerMethod → Heap → value * Heap;
  mockClear : loc → Heap → Heap;
  mockClearTimers : Heap → Heap;
}.

(** ** Runtime state *)

(** [type Module]; the optional fields are filled in by [_execModule]. *)
Record Module := {
  filename : string;
  exports : value;
  children : option (list value);
  parent : option string;          (* the [id] of the parent module *)
  paths : option (list string);
  require : option string;         (* the file the [require] is bound to *)
}.

(** What the wrapper is called with. *)
Record Scope := {
  sc_filename : string;
  sc_module : loc;
  sc_exports : value;
  sc_global : value;
  sc_jest : loc;
  sc_coverage : value;
}.

(** A mock factory is a closure: its code and the scope it was created in. *)
Record Factory := { fac_body : Prog; fac_scope : Scope }.

Inductive CoverageCollectorClass := CoverageCollector.

Inductive FsAccess :=
| FsResolve (from to : string)
| FsExists (path : string)
| FsReadFile (path : string)
| FsTransform (path : string)
| FsHostRequire (name : string).

(** The fields of a [Runtime] instance that change, followed by the state
    that lives outside it: the process-wide [normalizedIDCache], the
    stores of objects, module records and registry objects, the sandbox
    global ([None] once the environment is disposed) and a log of
    filesystem accesses. *)
Record State := {
  _moduleRegistry : loc;
  _mockRegistry : loc;
  _coverageCollectors : gmap string loc;
  _CoverageCollector : option CoverageCollectorClass;
  _currentlyExecutingModulePath : string;
  _isCurrentlyExecutingManualMock : option string;
  _explicitShouldMock : gmap string bool;
  _mockFactories : gmap string Factory;
  _mockMetaDataCache : gmap string (option Metadata);
  _shouldAutoMock : bool;
  _shouldMockModuleCache : gmap string bool;
  _shouldUnmockTransitiveDependenciesCache : gmap string bool;
  _transitiveShouldMock : gmap string bool;
  _virtualMocks : gmap string bool;
  normalizedIDCache : gmap string string;
  heap : Heap;
  modules : gmap loc Module;
  moduleRegistries : gmap loc (gmap string loc);
  mockRegistries : gmap loc (gmap string value);
  next_loc : loc;
  env_global : option loc;
  fsTrace : list FsAccess;
}.

Definition set_moduleRegistry (x : loc) (s : State) : State :=
  Build_State
    x (_mockRegistry s) (_coverageCollectors s) (_CoverageCollector s)
    (_currentlyExecutingModulePath s) (_isCurrentlyExecutingManualMock s)
    (_explicitShouldMock s) (_mockFactories s) (_mockMetaDataCache s)
    (_shouldAutoMock s) (_shouldMockModuleCache s)
    (_shouldUnmockTransitiveDependenciesCache s) (_transitiveShouldMock s)
    (_virtualMocks s) (normalizedIDCache s) (heap s) (modules s)
    (moduleRegistries s) (mockRegistries s) (next_loc s) (env_global s)
    (fsTrace s).
Definition set_mockRegistry (x : loc) (s : State) : State :=
  Build_State
    (_moduleRegistry s) x (_coverageCollectors s) (_CoverageCollector s)
    (_currentlyExecutingModulePath s) (_isCurrentlyExecutingManualMock s)
    (_explicitShouldMock s) (_mockFactories s) (_mockMetaDataCache s)
    (_shouldAutoMock s) (_shouldMockModuleCache s)
    (_shouldUnmockTransitiveDependenciesCache s) (_transitiveShouldMock s)
    (_virtualMocks s) (normalizedIDCache s) (heap s) (modules s)
    (moduleRegistries s) (mockRegistries s) (next_loc s) (env_global s)
    (fsTrace s).
Definition set_coverageCollectors (x : gmap string loc) (s : State) : State :=
  Build_State
    (_moduleRegistry s) (_mockRegistry s) x (_CoverageCollector s)
    (_currentlyExecutingModulePath s) (_isCurrentlyExecutingManualMock s)
    (_explicitShouldMock s) (_mockFactories s) (_mockMetaDataCache s)
    (_shouldAutoMock s) (_shouldMockModuleCache s)
    (_shouldUnmockTransitiveDependenciesCache s) (_transitiveShouldMock s)
    (_virtualMocks s) (normalizedIDCache s) (heap s) (modules s)
    (moduleRegistries s) (mockRegistries s) (next_loc s) (env_global s)
    (fsTrace s).
Definition set_currentlyExecutingModulePath (x : string) (s : State) : State :=
  Build_State
    (_moduleRegistry s) (_mockRegistry s) (_coverageCollectors s)
    (_CoverageCollector s) x (_isCurrentlyExecutingManualMock s)
    (_explicitShouldMock s) (_mockFactories s) (_mockMetaDataCache s)
    (_shouldAutoMock s) (_shouldMockModuleCache s)
    (_shouldUnmockTransitiveDependenciesCache s) (_transitiveShouldMock s)
    (_virtualMocks s) (normalizedIDCache s) (heap s) (modules s)
    (moduleRegistries s) (mockRegistries s) (next_loc s) (env_global s)
    (fsTrace s).
Definition set_isCurrentlyExecutingManualMock (x : option string) (s : State) : State :=
  Build_State
    (_moduleRegistry s) (_mockRegistry s) (_coverageCollectors s)
    (_CoverageCollector s) (_currentlyExecutingModulePath s) x
    (_explicitShouldMock s) (_mockFactories s) (_mockMetaDataCache s)
    (_shouldAutoMock s) (_shouldMockModuleCache s)
    (_shouldUnmockTransitiveDependenciesCache s) (_transitiveShouldMock s)
    (_virtualMocks s) (normalizedIDCache s) (heap s) (modules s)
    (moduleRegistries s) (mockRegistries s) (next_loc s) (env_global s)
    (fsTrace s).
Definition set_explicitShouldMock (x : gmap string bool) (s : State) : State :=
  Build_State
    (_moduleRegistry s) (_mockRegistry s) (_coverageCollectors s)
    (_CoverageCollector s) (_currentlyExecutingModulePath s)
    (_isCurrentlyExecutingManualMock s) x (_mockFactories s)
    (_mockMetaDataCache s) (_shouldAutoMock s) (_shouldMockModuleCache s)
    (_shouldUnmockTransitiveDependenciesCache s) (_transitiveShouldMock s)
    (_virtualMocks s) (normalizedIDCache s) (heap s) (modules s)
    (moduleRegistries s) (mockRegistries s) (next_loc s) (env_global s)
    (fsTrace s).
Definition set_mockFactories (x : gmap string Factory) (s : State) : State :=
  Build_State
    (_moduleRegistry s) (_mockRegistry s) (_coverageCollectors s)
    (_CoverageCollector s) (_currentlyExecutingModulePath s)
    (_isCurrentlyExecutingManualMock s) (_explicitShouldMock s) x
    (_mockMetaDataCache s) (_shouldAutoMock s) (_shouldMockModuleCache s)
    (_shouldUnmockTransitiveDependenciesCache s) (_transitiveShouldMock s)
    (_virtualMocks s) (normalizedIDCache s) (heap s) (modules s)
    (moduleRegistries s) (mockRegistries s) (next_loc s) (env_global s)
    (fsTrace s).
Definition set_mockMetaDataCache (x : gmap string (option Metadata)) (s : State) : State :=
  Build_State
    (_moduleRegistry s) (_mockRegistry s) (_coverageCollectors s)
    (_CoverageCollector s) (_currentlyExecutingModulePath s)
    (_isCurrentlyExecutingManualMock s) (_explicitShouldMock s)
    (_mockFactories s) x (_shouldAutoMock s) (_shouldMockModuleCache s)
    (_shouldUnmockTransitiveDependenciesCache s) (_transitiveShouldMock s)
    (_virtualMocks s) (normalizedIDCache s) (heap s) (modules s)
    (moduleRegistries s) (mockRegistries s) (next_loc s) (env_global s)
    (fsTrace s).
Definition set_shouldAutoMock (x : bool) (s : State) : State :=
  Build_State
    (_moduleRegistry s) (_mockRegistry s) (_coverageCollectors s)
    (_CoverageCollector s) (_currentlyExecutingModulePath s)
    (_isCurrentlyExecutingManualMock s) (_explicitShouldMock s)
    (_mockFactories s) (_mockMetaDataCache s) x (_shouldMockModuleCache s)
    (_shouldUnmockTransitiveDependenciesCache s) (_transitiveShouldMock s)
    (_virtualMocks s) (normalizedIDCache s) (heap s) (modules s)
    (moduleRegistries s) (mockRegistries s) (next_loc s) (env_global s)
    (fsTrace s).
Definition set_shouldMockModuleCache (x : gmap string bool) (s : State) : State :=
  Build_State
    (_moduleRegistry s) (_mockRegistry s) (_coverageCollectors s)
    (_CoverageCollector s) (_currentlyExecutingModulePath s)
    (_isCurrentlyExecutingManualMock s) (_explicitShouldMock s)
    (_mockFactories s) (_mockMetaDataCache s) (_shouldAutoMock s) x
    (_shouldUnmockTransitiveDependenciesCache s) (_transitiveShouldMock s)
    (_virtualMocks s) (normalizedIDCache s) (heap s) (modules s)
    (moduleRegistries s) (mockRegistries s) (next_loc s) (env_global s)
    (fsTrace s).
Definition set_shouldUnmockTransitiveDependenciesCache (x : gmap string bool) (s : State) : State :=
  Build_State
    (_moduleRegistry s) (_mockRegistry s) (_coverageCollectors s)
    (_CoverageCollector s) (_currentlyExecutingModulePath s)
    (_isCurrentlyExecutingManualMock s) (_explicitShouldMock s)
    (_mockFactories s) (_mockMetaDataCache s) (_shouldAutoMock s)
    (_shouldMockModuleCache s) x (_transitiveShouldMock s) (_virtualMocks s)
    (normalizedIDCache s) (heap s) (modules s) (moduleRegistries s)
    (mockRegistries s) (next_loc s) (env_global s) (fsTrace s).
Definition set_transitiveShouldMock (x : gmap string bool) (s : State) : State :=
  Build_State
    (_moduleRegistry s) (_mockRegistry s) (_coverageCollectors s)
    (_CoverageCollector s) (_currentlyExecutingModulePath s)
    (_isCurrentlyExecutingManualMock s) (_explicitShouldMock s)
    (_mockFactories s) (_mockMetaDataCache s) (_shouldAutoMock s)
    (_shouldMockModuleCache s) (_shouldUnmockTransitiveDependenciesCache s)
    x (_virtualMocks s) (normalizedIDCache s) (heap s) (modules s)
    (moduleRegistries s) (mockRegistries s) (next_loc s) (env_global s)
    (fsTrace s).
Definition set_virtualMocks (x : gmap string bool) (s : State) : State :=
  Build_State
    (_moduleRegistry s) (_mockRegistry s) (_coverageCollectors s)
    (_CoverageCollector s) (_currentlyExecutingModulePath s)
    (_isCurrentlyExecutingManualMock s) (_explicitShouldMock s)
    (_mockFactories s) (_mockMetaDataCache s) (_shouldAutoMock s)
    (_shouldMockModuleCache s) (_shouldUnmockTransitiveDependenciesCache s)
    (_transitiveShouldMock s) x (normalizedIDCache s) (heap s) (modules s)
    (moduleRegistries s) (mockRegistries s) (next_loc s) (env_global s)
    (fsTrace s).
Definition set_normalizedIDCache (x : gmap string string) (s : State) : State :=
  Build_State
    (_moduleRegistry s) (_mockRegistry s) (_coverageCollectors s)
    (_CoverageCollector s) (_currentlyExecutingModulePath s)
    (_isCurrentlyExecutingManualMock s) (_explicitShouldMock s)
    (_mockFactories s) (_mockMetaDataCache s) (_shouldAutoMock s)
    (_shouldMockModuleCache s) (_shouldUnmockTransitiveDependenciesCache s)
    (_transitiveShouldMock s) (_virtualMocks s) x (heap s) (modules s)
    (moduleRegistries s) (mockRegistries s) (next_loc s) (env_global s)
    (fsTrace s).
Definition set_heap (x : Heap) (s : State) : State :=
  Build_State
    (_moduleRegistry s) (_mockRegistry s) (_coverageCollectors s)
    (_CoverageCollector s) (_currentlyExecutingModulePath s)
    (_isCurrentlyExecutingManualMock s) (_explicitShouldMock s)
    (_mockFactories s) (_mockMetaDataCache s) (_shouldAutoMock s)
    (_shouldMockModuleCache s) (_shouldUnmockTransitiveDependenciesCache s)
    (_transitiveShouldMock s) (_virtualMocks s) (normalizedIDCache s) x
    (modules s) (moduleRegistries s) (mockRegistries s) (next_loc s)
    (env_global s) (fsTrace s).
Definition set_modules (x : gmap loc Module) (s : State) : State :=
  Build_State
    (_moduleRegistry s) (_mockRegistry s) (_coverageCollectors s)
    (_CoverageCollector s) (_currentlyExecutingModulePath s)
    (_isCurrentlyExecutingManualMock s) (_explicitShouldMock s)
    (_mockFactories s) (_mockMetaDataCache s) (_shouldAutoMock s)
    (_shouldMockModuleCache s) (_shouldUnmockTransitiveDependenciesCache s)
    (_transitiveShouldMock s) (_virtualMocks s) (normalizedIDCache s) (heap
    s) x (moduleRegistries s) (mockRegistries s) (next_loc s) (env_global s)
    (fsTrace s).
Definition set_moduleRegistries (x : gmap loc (gmap string loc)) (s : State) : State :=
  Build_State
    (_moduleRegistry s) (_mockRegistry s) (_coverageCollectors s)
    (_CoverageCollector s) (_currentlyExecutingModulePath s)
    (_isCurrentlyExecutingManualMock s) (_explicitShouldMock s)
    (_mockFactories s) (_mockMetaDataCache s) (_shouldAutoMock s)
    (_shouldMockModuleCache s) (_shouldUnmockTransitiveDependenciesCache s)
    (_transitiveShouldMock s) (_virtualMocks s) (normalizedIDCache s) (heap
    s) (modules s) x (mockRegistries s) (next_loc s) (env_global s) (fsTrace
    s).
Definition set_mockRegistries (x : gmap loc (gmap string value)) (s : State) : State :=
  Build_State
    (_moduleRegistry s) (_mockRegistry s) (_coverageCollectors s)
    (_CoverageCollector s) (_currentlyExecutingModulePath s)
    (_isCurrentlyExecutingManualMock s) (_explicitShouldMock s)
    (_mockFactories s) (_mockMetaDataCache s) (_shouldAutoMock s)
    (_shouldMockModuleCache s) (_shouldUnmockTransitiveDependenciesCache s)
    (_transitiveShouldMock s) (_virtualMocks s) (normalizedIDCache s) (heap
    s) (modules s) (moduleRegistries s) x (next_loc s) (env_global s)
    (fsTrace s).
Definition set_next_loc (x : loc) (s : State) : State :=
  Build_State
    (_moduleRegistry s) (_mockRegistry s) (_coverageCollectors s)
    (_CoverageCollector s) (_currentlyExecutingModulePath s)
    (_isCurrentlyExecutingManualMock s) (_explicitShouldMock s)
    (_mockFactories s) (_mockMetaDataCache s) (_shouldAutoMock s)
    (_shouldMockModuleCache s) (_shouldUnmockTransitiveDependenciesCache s)
    (_transitiveShouldMock s) (_virtualMocks s) (normalizedIDCache s) (heap
    s) (modules s) (moduleRegistries s) (mockRegistries s) x (env_global s)
    (fsTrace s).
Definition set_fsTrace (x : list FsAccess) (s : State) : State :=
  Build_State
    (_moduleRegistry s) (_mockRegistry s) (_coverageCollectors s)
    (_CoverageCollector s) (_currentlyExecutingModulePath s)
    (_isCurrentlyExecutingManualMock s) (_explicitShouldMock s)
    (_mockFactories s) (_mockMetaDataCache s) (_shouldAutoMock s)
    (_shouldMockModuleCache s) (_shouldUnmockTransitiveDependenciesCache s)
    (_transitiveShouldMock s) (_virtualMocks s) (normalizedIDCache s) (heap
    s) (modules s) (moduleRegistries s) (mockRegistries s) (next_loc s)
    (env_global s) x.

(** ** The state-and-exception monad *)

(** A call returns, throws, or exhausts the bound on nested calls from user
    code into the runtime. *)
Inductive outcome (A : Type) :=
| Ret (a : A) (st : State)
| Err (e : error) (st : State)
| OutOfFuel.
Arguments Ret {A} a st.
Arguments Err {A} e st.
Arguments OutOfFuel {A}.

Definition M (A : Type) : Type := State → outcome A.

Definition ret {A} (a : A) : M A := fun st => Ret a st.
Definition throw {A} (e : error) : M A := fun st => Err e st.
Definition bind {A B} (m : M A) (k : A → M B) : M B :=
  fun st =>
    match m st with
    | Ret a st' => k a st'
    | Err e st' => Err e st'
    | OutOfFuel => OutOfFuel
    end.
Definition get : M State := fun st => Ret st st.
Definition modify (f : State → State) : M unit := fun st => Ret tt (f st).
Definition lift {A} (r : result A) : M A :=
  match r with
  | Ok a => ret a
  | Fail e => throw e
  end.
(** [try { m } catch (e) { h e }] *)
Definition try_catch {A} (m : M A) (h : error → M A) : M A :=
  fun st =>
    match m st with
    | Ret a st' => Ret a st'
    | Err e st' => h e st'
    | OutOfFuel => OutOfFuel
    end.

Notation "'let*' x ':=' m 'in' k" := (bind m (fun x => k))
  (at level 10, x name, m at level 100, k at level 200).
Notation "'let*' ' pat ':=' m 'in' k" :=
  (bind m (fun x => match x with pat => k end))
  (at level 10, pat pattern, m at level 100, k at level 200).
Notation "m ';;' k" := (bind m (fun _ => k))
  (at level 100, k at level 200, right associativity).

Definition TypeError (msg : string) : error := JsError "TypeError" msg.

Definition log (a : FsAccess) : M unit :=
  modify (fun st => set_fsTrace (fsTrace st ++ [a]) st).

(** Allocation of a fresh location. *)
Definition fresh : M loc :=
  fun st => Ret (next_loc st) (set_next_loc (S (next_loc st)) st).

(** A new object with the given own properties. *)
Definition new_object (o : Obj) : M value :=
  let* l := fresh in
  modify (fun st => set_heap (<[l := o]> (heap st)) st) ;;
  ret (VObj l).

(** [this._moduleRegistry] and [this._mockRegistry] as objects. *)
Definition moduleRegistry_of (st : State) : gmap string loc :=
  default ∅ (moduleRegistries st !! _moduleRegistry st).
Definition mockRegistry_of (st : State) : gmap string value :=
  default ∅ (mockRegistries st !! _mockRegistry st).

(** [registry[key] = v] on the registry object at [r]. *)
Definition registry_write {V} (r : loc) (key : string) (v : V)
    (regs : gmap loc (gmap string V)) : gmap loc (gmap string V) :=
  <[r := <[key := v]> (default ∅ (regs !! r))]> regs.

(** [Object.create(null)] for a module registry and for a mock registry. *)
Definition new_moduleRegistry : M loc :=
  let* r := fresh in
  modify (fun st => set_moduleRegistries (<[r := ∅]> (moduleRegistries st)) st) ;;
  ret r.
Definition new_mockRegistry : M loc :=
  let* r := fresh in
  modify (fun st => set_mockRegistries (<[r := ∅]> (mockRegistries st)) st) ;;
  ret r.

(** A new module record. *)
Definition new_module (m : Module) : M loc :=
  let* l := fresh in
  modify (fun st => set_modules (<[l := m]> (modules st)) st) ;;
  ret l.

(** [localModule.field], for a record that has been allocated. *)
Definition read_module (l : loc) : M Module :=
  let* st := get in
  match modules st !! l with
  | Some m => ret m
  | None => throw (TypeError "Cannot read property of undefined")
  end.

Definition update_module (l : loc) (f : Module → Module) : M unit :=
  modify (fun st => set_modules (alter f l (modules st)) st).

Definition set_exports (v : value) (m : Module) : Module :=
  {| filename := filename m; exports := v; children := children m;
     parent := parent m; paths := paths m; require := require m |}.

(** [o[key]] and [o[key] = v] for user code. *)
Definition get_prop (o : value) (key : string) : M value :=
  match o with
  | VObj l =>
      let* st := get in
      ret (default VUndefined (heap st !! l ≫= fun props => props !! key))
  | VUndefined | VNull => throw (TypeError "Cannot read property of undefined")
  | _ => ret VUndefined
  end.

Definition set_prop (o : value) (key : string) (v : value) : M unit :=
  match o with
  | VObj l =>
      modify (fun st =>
        set_heap (<[l := <[key := v]> (default ∅ (heap st !! l))]> (heap st)) st)
  | VUndefined | VNull => throw (TypeError "Cannot set property of undefined")
  | _ => ret tt
  end.

(** Builds the value a [Shape] describes out of fresh objects. *)
Fixpoint build (sh : Shape) : M value :=
  match sh with
  | ShConst v => ret v
  | ShFunction => new_object {[ "_isMockFunction" := VBool true ]}
  | ShObject members =>
      let* o :=
        (fix build_members (ms : list (string * Shape)) : M Obj :=
           match ms with
           | [] => ret ∅
           | (key, sh') :: ms' =>
               let* v := build sh' in
               let* o := build_members ms' in
               ret (<[key := v]> o)
           end) members in
      new_object o
  end.

(** [moduleMocker.generateFromMetadata(metadata)] *)
Definition generateFromMetadata (metadata : option Metadata) : M value :=
  match metadata with
  | Some sh => build sh
  | None => throw (TypeError "Cannot read property of null")
  end.

(** The calls user code makes into the runtime, at one nesting level less. *)
Record Calls := {
  call_requireModuleOrMock : string → string → M value;
  call_requireMock : string → string → M value;
  call_requireModule : string → option string → M value;
  call_generateMock : string → string → M value;
}.

Definition newline : string := String (Ascii.ascii_of_nat 10) EmptyString.

(** ** The methods of [Runtime] *)

Section Runtime.

Context (W : World).

(** [_getVirtualMockPath(from, moduleName)] (lines 526-531) *)
Definition _getVirtualMockPath (from moduleName : string) : string :=
  match moduleName with
  | EmptyString => moduleName
  | String c _ =>
      if negb (Ascii.eqb c "."%char) && negb (Ascii.eqb c "/"%char) then moduleName
      else path_normalize W (path_dirname W from +:+ "/" +:+ moduleName)
  end.

(** [_resolveModule(from, to)] (lines 327-329) *)
Definition _resolveModule (from : string) (to : option string) : M string :=
  match to with
  | Some name =>
      if truthy_str name then
        log (FsResolve from name) ;;
        lift (resolveModule (resolver W) from name)
      else ret from
  | None => ret from
  end.

(** [_normalizeID(from, moduleName)] (lines 465-524) *)
Definition _normalizeID (from : string) (moduleName : option string) : M string :=
  let moduleName := or_empty moduleName in
  let key := from +:+ path_delimiter +:+ moduleName in
  let* st := get in
  if truthy_opt (normalizedIDCache st !! key) then
    ret (default "" (normalizedIDCache st !! key))
  else
    let* '(moduleType, absolutePath, mockPath) :=
      if isCoreModule (resolver W) moduleName then
        ret ("node", Some moduleName, None)
      else
        let* '(absolutePath, mockPath) :=
          if negb (truthy_opt (getModule (resolver W) moduleName)) &&
             negb (truthy_opt (getMockModule (resolver W) moduleName))
          then
            let absolutePath :=
              if truthy_str moduleName then
                let virtualMockPath := _getVirtualMockPath from moduleName in
                if bool_decide (is_Some (_virtualMocks st !! virtualMockPath))
                then Some virtualMockPath else None
              else None in
            let* absolutePath :=
              match absolutePath with
              | None =>
                  let* p := _resolveModule from (Some moduleName) in
                  ret (Some p)
              | Some _ => ret absolutePath
              end in
            (* Look up if this module has an associated manual mock. *)
            let mockModule := getMockModule (resolver W) moduleName in
            ret (absolutePath,
                 if truthy_opt mockModule then mockModule else None)
          else ret (None, None) in
        let absolutePath :=
          match absolutePath with
          | None =>
              let moduleResource := getModule (resolver W) moduleName in
              if truthy_opt moduleResource then moduleResource else None
          | Some _ => absolutePath
          end in
        let mockPath :=
          match mockPath with
          | None =>
              let mockResource := getMockModule (resolver W) moduleName in
              if truthy_opt mockResource then mockResource else None
          | Some _ => mockPath
          end in
        ret ("user", absolutePath, mockPath) in
    let sep := path_delimiter in
    let id := moduleType +:+ sep +:+ or_empty absolutePath +:+ sep +:+ or_empty mockPath in
    modify (fun st => set_normalizedIDCache (<[key := id]> (normalizedIDCache st)) st) ;;
    ret id.

(** [setMock(from, moduleName, mockFactory, options)] (lines 312-325);
    [virtual] is [options && options.virtual]. *)
Definition setMock (from moduleName : string) (mockFactory : Factory)
    (virtual : bool) : M unit :=
  (if virtual then
     let mockPath := _getVirtualMockPath from moduleName in
     modify (fun st => set_virtualMocks (<[mockPath := true]> (_virtualMocks st)) st)
   else ret tt) ;;
  let* moduleID := _normalizeID from (Some moduleName) in
  modify (fun st => set_explicitShouldMock (<[moduleID := true]> (_explicitShouldMock st)) st) ;;
  modify (fun st => set_mockFactories (<[moduleID := mockFactory]> (_mockFactories st)) st).

(** [_shouldMock(from, moduleName)] (lines 533-594) *)
Definition _shouldMock (from moduleName : string) : M bool :=
  let mockPath := _getVirtualMockPath from moduleName in
  let* st := get in
  if bool_decide (is_Some (_virtualMocks st !! mockPath)) then ret true
  else
    let* moduleID := _normalizeID from (Some moduleName) in
    let key := from +:+ path_delimiter +:+ moduleID in
    let* st := get in
    match _explicitShouldMock st !! moduleID with
    | Some explicit => ret explicit
    | None =>
      if negb (_shouldAutoMock st) ||
         isCoreModule (resolver W) moduleName ||
         default false (_shouldUnmockTransitiveDependenciesCache st !! key)
      then ret false
      else
        match _shouldMockModuleCache st !! moduleID with
        | Some cached => ret cached
        | None =>
          let manualMockResource := getMockModule (resolver W) moduleName in
          let* resolved :=
            try_catch
              (let* modulePath := _resolveModule from (Some moduleName) in
               ret (Some modulePath))
              (fun e =>
                 if truthy_opt manualMockResource then
                   modify (fun st => set_shouldMockModuleCache
                             (<[moduleID := true]> (_shouldMockModuleCache st)) st) ;;
                   ret None
                 else throw e) in
          match resolved with
          | None => ret true
          | Some modulePath =>
            if match _unmockList W with
               | Some re => re modulePath
               | None => false
               end
            then
              modify (fun st => set_shouldMockModuleCache
                        (<[moduleID := false]> (_shouldMockModuleCache st)) st) ;;
              ret false
            else
              (* transitive unmocking for package managers that store flat
                 packages (npm3) *)
              let* currentModuleID := _normalizeID from None in
              let* st := get in
              if bool_decide (_transitiveShouldMock st !! currentModuleID = Some false) ||
                 (includes NODE_MODULES from &&
                  includes NODE_MODULES modulePath &&
                  (match _unmockList W with
                   | Some re => re from
                   | None => false
                   end ||
                   bool_decide (_explicitShouldMock st !! currentModuleID = Some false)))
              then
                modify (fun st => set_transitiveShouldMock
                          (<[moduleID := false]> (_transitiveShouldMock st)) st) ;;
                modify (fun st => set_shouldUnmockTransitiveDependenciesCache
                          (<[key := true]> (_shouldUnmockTransitiveDependenciesCache st)) st) ;;
                ret false
              else
                modify (fun st => set_shouldMockModuleCache
                          (<[moduleID := true]> (_shouldMockModuleCache st)) st) ;;
                ret true
          end
        end
    end.

(** The loop of [resetModuleRegistry] over [Object.keys(envGlobal)]. *)
Definition clear_global_mocks (envGlobal : loc) (keys : list string) (h : Heap) : Heap :=
  foldl
    (fun h key =>
       match h !! envGlobal ≫= (fun props => props !! key) with
       | Some (VObj globalMock) =>
           if truthy (default VUndefined
                        (h !! globalMock ≫= fun props => props !! "_isMockFunction"))
           then mockClear W globalMock h
           else h
       | _ => h
       end)
    h keys.

(** [resetModuleRegistry()] (lines 279-299) *)
Definition resetModuleRegistry : M unit :=
  let* mockRegistry := new_mockRegistry in
  modify (set_mockRegistry mockRegistry) ;;
  let* moduleRegistry := new_moduleRegistry in
  modify (set_moduleRegistry moduleRegistry) ;;
  let* st := get in
  match env_global st with
  | Some envGlobal =>
      let keys := (map_to_list (default ∅ (heap st !! envGlobal))).*1 in
      modify (fun st => set_heap (clear_global_mocks envGlobal keys (heap st)) st) ;;
      let* st := get in
      if truthy (default VUndefined
                   (heap st !! envGlobal ≫= fun props => props !! "mockClearTimers"))
      then modify (fun st => set_heap (mockClearTimers W (heap st)) st)
      else ret tt
  | None => ret tt
  end.

(** [_shouldCollectCoverage(filename)] (lines 331-343) *)
Definition _shouldCollectCoverage (filename : string) : value :=
  let collectOnlyFrom := collectCoverageOnlyFrom (config W) in
  let shouldCollectCoverage :=
    js_or
      (js_and (VBool (collectCoverage (config W)))
              (VBool (negb (bool_decide (is_Some collectOnlyFrom)))))
      (match collectOnlyFrom with
       | Some only =>
           match only !! filename with
           | Some b => VBool b
           | None => VUndefined
           end
       | None => VUndefined
       end) in
  js_and
    (js_and
       (js_and shouldCollectCoverage (VBool (negb (_coverageRegex W filename))))
       (VBool (negb (match _mocksPattern W with
                     | Some re => re filename
                     | None => false
                     end))))
    (VBool (negb (_testRegex W filename))).

(** [_runScript(script, filename)] (lines 397-426) *)
Definition _runScript (script : Script) (filename : string) : result Prog :=
  match script_eval script with
  | Ok wrapper => Ok wrapper
  | Fail e =>
      let relative := fun filePath => path_relative W (rootDir (config W)) filePath in
      if String.eqb (error_name e) "SyntaxError" then
        let preprocessorInfo :=
          match scriptPreprocessor (config W) with
          | Some p =>
              if truthy_str p then relative p
              else "No preprocessor specified, consider installing 'babel-jest'"
          | None => "No preprocessor specified, consider installing 'babel-jest'"
          end in
        let babelInfo :=
          if usesBabelJest (config W) then
            "Make sure your '.babelrc' is set up correctly, " +:+
            "for example it should include the 'es2015' preset." +:+ newline
          else "" in
        Fail (JsError "SyntaxError"
          (error_message e +:+ " in file '" +:+ relative filename +:+ "'." +:+
           newline +:+ newline +:+
           "Make sure your preprocessor is set up correctly and ensure " +:+
           "your 'preprocessorIgnorePatterns' configuration is correct: http://facebook.github.io/jest/docs/api.html#preprocessorignorepatterns-array-string" +:+
           newline +:+
           "If you are currently setting up Jest or modifying your preprocessor, try `jest --no-cache`." +:+
           newline +:+
           "Preprocessor: " +:+ preprocessorInfo +:+ "." +:+ newline +:+ babelInfo))
      else Fail e
  end.

(** [_createRuntimeFor(from)] (lines 606-719) allocates the [jest] object;
    its methods are [jest_call] below. *)
Definition _createRuntimeFor (from : string) : M loc :=
  let* runtime := new_object ∅ in
  match runtime with
  | VObj l => ret l
  | _ => throw (TypeError "unreachable")
  end.

(** The methods of the object made by [_createRuntimeFor(from)]: [runtime]
    is that object, [scope] the scope a factory passed to [mock] closes
    over. *)
Definition jest_call (rec : Calls) (from : string) (runtime : loc)
    (scope : Scope) (c : JestCall) : M value :=
  match c with
  | DisableAutomock =>
      modify (set_shouldAutoMock false) ;;
      ret (VObj runtime)
  | EnableAutomock =>
      modify (set_shouldAutoMock true) ;;
      ret (VObj runtime)
  | Unmock moduleName =>
      let* moduleID := _normalizeID from (Some moduleName) in
      modify (fun st => set_explicitShouldMock (<[moduleID := false]> (_explicitShouldMock st)) st) ;;
      ret (VObj runtime)
  | DeepUnmock moduleName =>
      let* moduleID := _normalizeID from (Some moduleName) in
      modify (fun st => set_explicitShouldMock (<[moduleID := false]> (_explicitShouldMock st)) st) ;;
      modify (fun st => set_transitiveShouldMock (<[moduleID := false]> (_transitiveShouldMock st)) st) ;;
      ret (VObj runtime)
  | Mock moduleName (Some mockFactory) virtual =>
      (* setMockFactory *)
      setMock from moduleName
        {| fac_body := mockFactory; fac_scope := scope |} virtual ;;
      ret (VObj runtime)
  | Mock moduleName None _ =>
      let* moduleID := _normalizeID from (Some moduleName) in
      modify (fun st => set_explicitShouldMock (<[moduleID := true]> (_explicitShouldMock st)) st) ;;
      ret (VObj runtime)
  | SetMock moduleName mock =>
      (* setMockFactory(moduleName, () => mock) *)
      setMock from moduleName
        {| fac_body := PRet mock; fac_scope := scope |} false ;;
      ret (VObj runtime)
  | ResetModuleRegistry =>
      resetModuleRegistry ;;
      ret (VObj runtime)
  | GenMockFromModule moduleName =>
      call_generateMock rec from moduleName
  | Timer UseFakeTimers =>
      modify (fun st => set_heap (fakeTimers W UseFakeTimers (heap st)).2 st) ;;
      ret (VObj runtime)
  | Timer UseRealTimers =>
      modify (fun st => set_heap (fakeTimers W UseRealTimers (heap st)).2 st) ;;
      ret (VObj runtime)
  | Timer m =>
      (* [() => this._environment.fakeTimers.m()] *)
      let* st := get in
      modify (set_heap (fakeTimers W m (heap st)).2) ;;
      ret (fakeTimers W m (heap st)).1
  end.

(** Running user code in the scope of one wrapper invocation. *)
Fixpoint runProg (rec : Calls) (scope : Scope) (p : Prog) : M value :=
  match p with
  | PRet v => ret v
  | PThrow e => throw e
  | PTry body handler k =>
      let* v := try_catch (runProg rec scope body)
                          (fun e => runProg rec scope (handler e)) in
      runProg rec scope (k v)
  | PRequire mode moduleName k =>
      let* v :=
        match mode with
        | ReqAuto => call_requireModuleOrMock rec (sc_filename scope) moduleName
        | ReqMock => call_requireMock rec (sc_filename scope) moduleName
        | ReqActual => call_requireModule rec (sc_filename scope) (Some moduleName)
        end in
      runProg rec scope (k v)
  | PExports k => runProg rec scope (k (sc_exports scope))
  | PModuleExports k =>
      let* m := read_module (sc_module scope) in
      runProg rec scope (k (exports m))
  | PSetModuleExports v k =>
      update_module (sc_module scope) (set_exports v) ;;
      runProg rec scope k
  | PGlobal k => runProg rec scope (k (sc_global scope))
  | PNew k =>
      let* o := new_object ∅ in
      runProg rec scope (k o)
  | PGet o key k =>
      let* v := get_prop o key in
      runProg rec scope (k v)
  | PSet o key v k =>
      set_prop o key v ;;
      runProg rec scope k
  | PJest c k =>
      let* v := jest_call rec (sc_filename scope) (sc_jest scope) scope c in
      runProg rec scope (k v)
  end.

(** [const mockParentModule = {exports: {}, filename: 'mock.js', id: 'mockParent'}] *)
Definition mockParentModule : string := "mockParent".

(** The fields [_execModule] assigns on the record (lines 366-369). *)
Definition populate (filename' : string) (m : Module) : Module :=
  {| filename := filename m;
     exports := exports m;
     children := Some [];
     parent := Some mockParentModule;
     paths := Some (getModulePaths (resolver W) (path_dirname W filename'));
     (* [_createRequireImplementation(filename)] *)
     require := Some filename' |}.

(** [_execModule(localModule)] (lines 345-395) *)
Definition _execModule (rec : Calls) (localModule : loc) : M unit :=
  let* st := get in
  (* If the environment was disposed, prevent this module from being
     executed. *)
  match env_global st with
  | None => ret tt
  | Some _ =>
    let* m := read_module localModule in
    let filename := filename m in
    let shouldCollectCoverage := _shouldCollectCoverage filename in
    (if truthy shouldCollectCoverage &&
        negb (bool_decide (is_Some (_coverageCollectors st !! filename)))
     then
       match _CoverageCollector st with
       | Some CoverageCollector =>
           let* collector := fresh in
           modify (fun st => set_heap (<[collector := ∅]> (heap st)) st) ;;
           modify (fun st => set_coverageCollectors
                     (<[filename := collector]> (_coverageCollectors st)) st)
       | None => throw (TypeError "this._CoverageCollector is not a constructor")
       end
     else ret tt) ;;
    let* st := get in
    let collectorStore :=
      js_and shouldCollectCoverage
        (match _coverageCollectors st !! filename with
         | Some collector => VObj collector
         | None => VUndefined
         end) in
    let lastExecutingModulePath := _currentlyExecutingModulePath st in
    modify (set_currentlyExecutingModulePath filename) ;;
    let origCurrExecutingManualMock := _isCurrentlyExecutingManualMock st in
    modify (set_isCurrentlyExecutingManualMock (Some filename)) ;;
    update_module localModule (populate filename) ;;
    log (FsTransform filename) ;;
    let* script := lift (transform W filename (truthy shouldCollectCoverage)) in
    let* wrapper := lift (_runScript script filename) in
    let* m := read_module localModule in
    let* st := get in
    let global :=
      match env_global st with
      | Some g => VObj g
      | None => VNull
      end in
    let* jest := _createRuntimeFor filename in
    runProg rec
      {| sc_filename := filename; sc_module := localModule;
         sc_exports := exports m; sc_global := global; sc_jest := jest;
         sc_coverage := collectorStore |}
      wrapper ;;
    modify (set_isCurrentlyExecutingManualMock origCurrExecutingManualMock) ;;
    modify (set_currentlyExecutingModulePath lastExecutingModulePath)
  end.

(** What [requireModule] is asked for: a built-in of the host, or a file. *)
Inductive Target :=
| CoreModule (moduleName : string)
| ModulePath (modulePath : string).

(** [requireModule(from, moduleName)], lines 166-191: the choice of the
    module to load. *)
Definition requireModule_target (from : string) (moduleName : option string) : M Target :=
  let* moduleID := _normalizeID from moduleName in
  let* st := get in
  (* Some old tests rely on this mocking behavior. *)
  let moduleResource :=
    if truthy_opt moduleName then getModule (resolver W) (or_empty moduleName)
    else None in
  let manualMockResource :=
    if truthy_opt moduleName then getMockModule (resolver W) (or_empty moduleName)
    else None in
  let modulePath :=
    if negb (truthy_opt moduleResource) &&
       truthy_opt manualMockResource &&
       negb (bool_decide (manualMockResource = _isCurrentlyExecutingManualMock st)) &&
       negb (bool_decide (_explicitShouldMock st !! moduleID = Some false))
    then manualMockResource
    else None in
  if truthy_opt moduleName && isCoreModule (resolver W) (or_empty moduleName) then
    ret (CoreModule (or_empty moduleName))
  else
    match modulePath with
    | Some modulePath => ret (ModulePath modulePath)
    | None =>
        let* modulePath := _resolveModule from moduleName in
        ret (ModulePath modulePath)
    end.

(** [requireModule(from, moduleName)], line 214:
    [return this._moduleRegistry[modulePath].exports] *)
Definition requireModule_deliver (modulePath : string) : M value :=
  let* st := get in
  match moduleRegistry_of st !! modulePath with
  | Some localModule =>
      let* m := read_module localModule in
      ret (exports m)
  | None => throw (TypeError "Cannot read property 'exports' of undefined")
  end.

(** [requireModule(from, moduleName)], lines 193-214: registration,
    execution and delivery of the module at [modulePath]. *)
Definition requireModule_load (rec : Calls) (modulePath : string) : M value :=
  let* st := get in
  (match moduleRegistry_of st !! modulePath with
   | Some _ => ret tt
   | None =>
       (* We must register the pre-allocated module object first so that
          any circular dependencies that may arise while evaluating the
          module can be satisfied. *)
       let* emptyExports := new_object ∅ in
       let* localModule :=
         new_module {| filename := modulePath; exports := emptyExports;
                       children := None; parent := None; paths := None;
                       require := None |} in
       modify (fun st => set_moduleRegistries
                 (registry_write (_moduleRegistry st) modulePath localModule
                    (moduleRegistries st)) st) ;;
       if String.eqb (path_extname W modulePath) ".json" then
         let* st := get in
         match env_global st with
         | Some _ =>
             log (FsReadFile modulePath) ;;
             let* parsed := lift (readJSON W modulePath) in
             let* v := build parsed in
             update_module localModule (set_exports v)
         | None => throw (TypeError "Cannot read property 'JSON' of null")
         end
       else if String.eqb (path_extname W modulePath) ".node" then
         log (FsHostRequire modulePath) ;;
         let* v := lift (hostRequire W modulePath) in
         update_module localModule (set_exports v)
       else
         _execModule rec localModule
   end) ;;
  requireModule_deliver modulePath.

(** [requireModule(from, moduleName)] (lines 165-215) *)
Definition requireModule (rec : Calls) (from : string) (moduleName : option string) : M value :=
  let* target := requireModule_target from moduleName in
  match target with
  | CoreModule name =>
      log (FsHostRequire name) ;;
      lift (hostRequire W name)
  | ModulePath modulePath => requireModule_load rec modulePath
  end.

(** [_generateMock(from, moduleName)] (lines 428-463) *)
Definition _generateMock (rec : Calls) (from moduleName : string) : M value :=
  let* modulePath := _resolveModule from (Some moduleName) in
  let* st := get in
  (if negb (bool_decide (is_Some (_mockMetaDataCache st !! modulePath))) then
     (* This allows us to handle circular dependencies while generating an
        automock *)
     let* empty := new_object ∅ in
     let* st := get in
     modify (fun st => set_mockMetaDataCache
               (<[modulePath := getMetadata W (heap st) empty]> (_mockMetaDataCache st)) st) ;;
     (* execute the module in isolation *)
     let* st := get in
     let origMockRegistry := _mockRegistry st in
     let origModuleRegistry := _moduleRegistry st in
     let* mockRegistry := new_mockRegistry in
     modify (set_mockRegistry mockRegistry) ;;
     let* moduleRegistry := new_moduleRegistry in
     modify (set_moduleRegistry moduleRegistry) ;;
     let* moduleExports := requireModule rec from (Some moduleName) in
     (* Restore the "real" module/mock registries *)
     modify (set_mockRegistry origMockRegistry) ;;
     modify (set_moduleRegistry origModuleRegistry) ;;
     let* st := get in
     match getMetadata W (heap st) moduleExports with
     | None =>
         throw (JsError "Error"
           ("Failed to get mock metadata: " +:+ modulePath +:+ newline +:+ newline +:+
            "See: http://facebook.github.io/jest/docs/manual-mocks.html#content"))
     | Some mockMetadata =>
         modify (fun st => set_mockMetaDataCache
                   (<[modulePath := Some mockMetadata]> (_mockMetaDataCache st)) st)
     end
   else ret tt) ;;
  let* st := get in
  generateFromMetadata (default None (_mockMetaDataCache st !! modulePath)).

(** [requireMock(from, moduleName)] (lines 217-269).  In an assignment
    [this._mockRegistry[moduleID] = f()] the registry object is taken
    before [f] is called. *)
Definition requireMock (rec : Calls) (from moduleName : string) : M value :=
  let* moduleID := _normalizeID from (Some moduleName) in
  let* st := get in
  if truthy (default VUndefined (mockRegistry_of st !! moduleID)) then
    ret (default VUndefined (mockRegistry_of st !! moduleID))
  else
    match _mockFactories st !! moduleID with
    | Some mockFactory =>
        let registry := _mockRegistry st in
        let* v := runProg rec (fac_scope mockFactory) (fac_body mockFactory) in
        modify (fun st => set_mockRegistries
                  (registry_write registry moduleID v (mockRegistries st)) st) ;;
        ret v
    | None =>
        let manualMockResource := getMockModule (resolver W) moduleName in
        let* '(manualMockResource, modulePath) :=
          if truthy_opt manualMockResource then
            let* modulePath := _resolveModule from manualMockResource in
            ret (true, modulePath)
          else
            let* modulePath := _resolveModule from (Some moduleName) in
            (* If the actual module file has a __mocks__ dir sitting
               immediately next to it, look to see if there is a manual
               mock for this file. *)
            let moduleDir := path_dirname W modulePath in
            let moduleFileName := path_basename W modulePath in
            let potentialManualMock :=
              path_join3 W moduleDir "__mocks__" moduleFileName in
            log (FsExists potentialManualMock) ;;
            if fs_existsSync W potentialManualMock then
              ret (true, potentialManualMock)
            else ret (false, modulePath) in
        (if manualMockResource then
           let* emptyExports := new_object ∅ in
           let* localModule :=
             new_module {| filename := modulePath; exports := emptyExports;
                           children := None; parent := None; paths := None;
                           require := None |} in
           _execModule rec localModule ;;
           let* m := read_module localModule in
           modify (fun st => set_mockRegistries
                     (registry_write (_mockRegistry st) moduleID (exports m)
                        (mockRegistries st)) st)
         else
           (* Look for a real module to generate an automock from *)
           let* st := get in
           let registry := _mockRegistry st in
           let* v := _generateMock rec from moduleName in
           modify (fun st => set_mockRegistries
                     (registry_write registry moduleID v (mockRegistries st)) st)) ;;
        let* st := get in
        ret (default VUndefined (mockRegistry_of st !! moduleID))
    end.

(** [requireModuleOrMock(from, moduleName)] (lines 271-277) *)
Definition requireModuleOrMock (rec : Calls) (from moduleName : string) : M value :=
  let* mock := _shouldMock from moduleName in
  if mock then requireMock rec from moduleName
  else requireModule rec from (Some moduleName).

(** The runtime as user code sees it when at most [n] calls from user code
    into the runtime are nested. *)
Fixpoint calls (n : nat) : Calls :=
  match n with
  | O =>
      {| call_requireModuleOrMock := fun _ _ _ => OutOfFuel;
         call_requireMock := fun _ _ _ => OutOfFuel;
         call_requireModule := fun _ _ _ => OutOfFuel;
         call_generateMock := fun _ _ _ => OutOfFuel |}
  | S n' =>
      {| call_requireModuleOrMock := requireModuleOrMock (calls n');
         call_requireMock := requireMock (calls n');
         call_requireModule := requireModule (calls n');
         call_generateMock := _generateMock (calls n') |}
  end.

(** The loop of the constructor over [config.setupFiles] (lines 129-133). *)
Fixpoint require_setupFiles (rec : Calls) (files : list string) : M unit :=
  match files with
  | [] => ret tt
  | file :: files' =>
      requireModule rec file None ;;
      require_setupFiles rec files'
  end.

(** [unmockPath] applied to each setup file (lines 118-125). *)
Fixpoint unmock_setupFiles (files : list string) : M unit :=
  match files with
  | [] => ret tt
  | filePath :: files' =>
      (if truthy_str filePath && includes NODE_MODULES filePath then
         let* moduleID := _normalizeID filePath None in
         modify (fun st => set_transitiveShouldMock
                   (<[moduleID := false]> (_transitiveShouldMock st)) st)
       else ret tt) ;;
      unmock_setupFiles files'
  end.

(** [constructor(config, environment, resolver)] (lines 76-134), run on the
    state of the process the instance is created in. *)
Definition constructor (rec : Calls) : M unit :=
  let* moduleRegistry := new_moduleRegistry in
  let* mockRegistry := new_mockRegistry in
  modify (fun st =>
    {| _moduleRegistry := moduleRegistry;
       _mockRegistry := mockRegistry;
       _coverageCollectors := ∅;
       _CoverageCollector :=
         if collectCoverage (config W) then Some CoverageCollector else None;
       _currentlyExecutingModulePath := "";
       _isCurrentlyExecutingManualMock := None;
       _explicitShouldMock := ∅;
       _mockFactories := ∅;
       _mockMetaDataCache := ∅;
       _shouldAutoMock := automock (config W);
       _shouldMockModuleCache := ∅;
       _shouldUnmockTransitiveDependenciesCache := ∅;
       _transitiveShouldMock := ∅;
       _virtualMocks := ∅;
       normalizedIDCache := normalizedIDCache st;
       heap := heap st;
       modules := modules st;
       moduleRegistries := moduleRegistries st;
       mockRegistries := mockRegistries st;
       next_loc := next_loc st;
       env_global := env_global st;
       fsTrace := fsTrace st |}) ;;
  unmock_setupFiles (setupFiles (config W)) ;;
  resetModuleRegistry ;;
  require_setupFiles rec (setupFiles (config W)).

End Runtime.

Arguments _normalizeID : simpl never.
Arguments _resolveModule : simpl never.
Arguments _shouldMock : simpl never.
Arguments setMock : simpl never.
Arguments resetModuleRegistry : simpl never.
Arguments _execModule : simpl never.
Arguments requireModule_target : simpl never.
Arguments requireModule_load : simpl never.
Arguments requireModule_deliver : simpl never.
Arguments requireModule : simpl never.
Arguments _generateMock : simpl never.
Arguments requireMock : simpl never.
Arguments requireModuleOrMock : simpl never.
Arguments generateFromMetadata : simpl never.

(** ** Concrete worlds

    Small file systems, resolvers and module bodies on which the runtime is
    run in the examples below. *)

(** [Some (dir, base)] splits a path at its last separator. *)
Fixpoint dir_base (p : string) : option (string * string) :=
  match p with
  | EmptyString => None
  | String c r =>
      match dir_base r with
      | Some (d, b) => Some (String c d, b)
      | None => if Ascii.eqb c "/"%char then Some (EmptyString, r) else None
      end
  end.

Definition posix_dirname (p : string) : string :=
  match dir_base p with
  | Some (d, _) => d
  | None => "."
  end.

Definition posix_basename (p : string) : string :=
  match dir_base p with
  | Some (_, b) => b
  | None => p
  end.

Definition assoc {A} (key : string) (table : list (string * A)) : option A :=
  snd <$> (snd <$> list_find (fun e => bool_decide (e.1 = key)) table).

Definition not_found (what : string) : error :=
  JsError "Error" ("Cannot find module '" +:+ what +:+ "'").

(** A resolver given by tables: [files] maps [from:specifier] to the
    resolved path, [haste] and [mocks] are the haste map's modules and
    manual mocks, [core] the built-in names. *)
Definition table_resolver (files haste mocks : list (string * string))
    (core : list string) : Resolver :=
  {| resolveModule := fun from name =>
       match assoc (from +:+ ":" +:+ name) files with
       | Some p => Ok p
       | None => Fail (not_found name)
       end;
     getModule := fun name => assoc name haste;
     getMockModule := fun name => assoc name mocks;
     isCoreModule := fun name => bool_decide (name ∈ core);
     getModulePaths := fun _ => [] |}.

Definition plain_config : Config :=
  {| automock := false; collectCoverage := false;
     collectCoverageOnlyFrom := None; setupFiles := [];
     rootDir := "/t"; scriptPreprocessor := None; usesBabelJest := false |}.

(** A world over a resolver and a table of wrappers by file name; nothing
    matches the coverage, mocks, test and unmock patterns, and the fake
    timers' methods return [undefined]. *)
Definition table_world (cfg : Config) (res : Resolver)
    (wrappers : list (string * Prog)) : World :=
  {| config := cfg;
     resolver := res;
     _coverageRegex := fun _ => false;
     _mocksPattern := None;
     _testRegex := fun _ => false;
     _unmockList := None;
     transform := fun file _ =>
       match assoc file wrappers with
       | Some w => Ok {| script_eval := Ok w |}
       | None => Fail (JsError "Error" ("ENOENT: " +:+ file))
       end;
     hostRequire := fun name => Fail (not_found name);
     readJSON := fun file => Fail (JsError "Error" ("ENOENT: " +:+ file));
     fs_existsSync := fun _ => false;
     path_dirname := posix_dirname;
     path_basename := posix_basename;
     path_extname := fun _ => ".js";
     path_normalize := fun p => p;
     path_join3 := fun a b c => a +:+ "/" +:+ b +:+ "/" +:+ c;
     path_relative := fun _ p => p;
     getMetadata := fun _ _ => Some (ShObject []);
     fakeTimers := fun _ h => (VUndefined, h);
     mockClear := fun _ h => h;
     mockClearTimers := fun h => h |}.

(** The process before a [Runtime] is constructed: a sandbox whose global
    object is at location 0. *)
Definition process_state : State :=
  {| _moduleRegistry := 0; _mockRegistry := 0; _coverageCollectors := ∅;
     _CoverageCollector := None; _currentlyExecutingModulePath := "";
     _isCurrentlyExecutingManualMock := None; _explicitShouldMock := ∅;
     _mockFactories := ∅; _mockMetaDataCache := ∅; _shouldAutoMock := false;
     _shouldMockModuleCache := ∅;
     _shouldUnmockTransitiveDependenciesCache := ∅;
     _transitiveShouldMock := ∅; _virtualMocks := ∅;
     normalizedIDCache := ∅; heap := {[ 0 := ∅ ]}; modules := ∅;
     moduleRegistries := ∅; mockRegistries := ∅; next_loc := 1;
     env_global := Some 0; fsTrace := [] |}.

(** The state of a newly constructed [Runtime]. *)
Definition new_Runtime (W : World) : State :=
  match constructor W (calls W 0) process_state with
  | Ret _ st => st
  | _ => process_state
  end.

(** The result of a call and the state it leaves, when it returns. *)
Definition returned {A} (o : outcome A) : option (A * State) :=
  match o with
  | Ret a st => Some (a, st)
  | _ => None
  end.

Definition state_after {A} (o : outcome A) (otherwise : State) : State :=
  match o with
  | Ret _ st | Err _ st => st
  | OutOfFuel => otherwise
  end.

(** Scenario S2, a cycle: [/t/a.js] is
    [exports.a = 1; require('./b'); exports.a = 2] and [/t/b.js] is
    [const A = require('./a'); exports.seen = A.a]. *)
Definition a_js : Prog :=
  PExports (fun e =>
  PSet e "a" (VNum 1) (
  PRequire ReqAuto "./b" (fun _ =>
  PSet e "a" (VNum 2) (
  PRet VUndefined)))).

Definition b_js : Prog :=
  PRequire ReqAuto "./a" (fun A =>
  PGet A "a" (fun v =>
  PExports (fun e =>
  PSet e "seen" v (
  PRet VUndefined)))).

Definition cycle_world : World :=
  table_world plain_config
    (table_resolver [("/t/a.js:./b", "/t/b.js"); ("/t/b.js:./a", "/t/a.js")] [] [] [])
    [("/t/a.js", a_js); ("/t/b.js", b_js)].

(** Coverage is switched off, but an allow-list names [/t/a.js]. *)
Definition allowlist_config : Config :=
  {| automock := false; collectCoverage := false;
     collectCoverageOnlyFrom := Some {[ "/t/a.js" := true ]}; setupFiles := [];
     rootDir := "/t"; scriptPreprocessor := None; usesBabelJest := false |}.

Definition allowlist_world : World :=
  table_world allowlist_config (table_resolver [] [] [] [])
    [("/t/a.js", PRet VUndefined)].

(** A module whose body throws. *)
Definition throwing_world : World :=
  table_world plain_config (table_resolver [] [] [] [])
    [("/t/throws.js", PThrow (JsError "Error" "boom"))].

(** The methods of the [jest] object that end in [return runtime]. *)
Definition chaining (c : JestCall) : bool :=
  match c with
  | EnableAutomock | DisableAutomock | Mock _ _ _ | SetMock _ _ | Unmock _
  | DeepUnmock _ | ResetModuleRegistry
  | Timer UseFakeTimers | Timer UseRealTimers => true
  | GenMockFromModule _ | Timer _ => false
  end.

(** The scope [_execModule] would call the wrapper of [file] with, for the
    [jest] object at [runtime]. *)
Definition scope_of (file : string) (runtime : loc) : Scope :=
  {| sc_filename := file; sc_module := 0; sc_exports := VUndefined;
     sc_global := VObj 0; sc_jest := runtime; sc_coverage := VUndefined |}.

(** Two directories with a module [./m] each; automock is on. *)
Definition two_dirs_world : World :=
  table_world
    {| automock := true; collectCoverage := false;
       collectCoverageOnlyFrom := None; setupFiles := [];
       rootDir := "/"; scriptPreprocessor := None; usesBabelJest := false |}
    (table_resolver [("/a/t.js:./m", "/a/m.js"); ("/b/t.js:./m", "/b/m.js")] [] [] [])
    [("/a/m.js", PRet VUndefined); ("/b/m.js", PRet VUndefined)].

(** Nothing resolves and no file exists. *)
Definition empty_world : World :=
  table_world plain_config (table_resolver [] [] [] []) [].

(** Scenario S5: [mock('nope', () => ({v: 42}), {virtual: true})]. *)
Definition factory_42 : Prog :=
  PNew (fun o => PSet o "v" (VNum 42) (PRet o)).

(** Three modules required from [/t/x.js]: [./ok] does nothing, [./u]
    exports a function [k], and the body of [./throws] throws. *)
Definition automock_world : World :=
  table_world plain_config
    (table_resolver
       [("/t/x.js:./ok", "/t/ok.js"); ("/t/x.js:./u", "/t/u.js");
        ("/t/x.js:./throws", "/t/throws.js")] [] [] [])
    [("/t/ok.js", PRet VUndefined);
     ("/t/u.js", PNew (fun k => PExports (fun e => PSet e "k" k (PRet VUndefined))));
     ("/t/throws.js", PThrow (JsError "Error" "boom"))].

(** A runtime that has [./ok] in its module registry. *)
Definition automock_state : State :=
  state_after
    (requireModule automock_world (calls automock_world 0) "/t/x.js" (Some "./ok")
       (new_Runtime automock_world))
    (new_Runtime automock_world).

(** A module that exports a singleton kept on the sandbox global:
    [global.shared = global.shared || {}; module.exports = global.shared]. *)
Definition g_js : Prog :=
  PGlobal (fun g =>
  PGet g "shared" (fun shared =>
  if truthy shared then PSetModuleExports shared (PRet VUndefined)
  else
    PNew (fun o =>
    PSet g "shared" o (
    PSetModuleExports o (
    PRet VUndefined))))).

Definition singleton_world : World :=
  table_world plain_config
    (table_resolver [("/t/x.js:./g", "/t/g.js")] [] [] [])
    [("/t/g.js", g_js)].

(** A package [X] in [node_modules] that also has a manual mock, whose
    body calls [jest.unmock('X')]. *)
Definition ghost_world : World :=
  table_world plain_config
    (table_resolver [("/t/x.js:X", "/t/node_modules/X.js")] []
       [("X", "/t/__mocks__/X.js")] [])
    [("/t/__mocks__/X.js", PJest (Unmock "X") (fun _ => PRet VUndefined));
     ("/t/node_modules/X.js", PRet VUndefined)].

(** ** Specification vocabulary *)

(** The two scalars that name the module being executed. *)
Definition executing (st : State) : string * option string :=
  (_currentlyExecutingModulePath st, _isCurrentlyExecutingManualMock st).

(** The wrapper [_execModule] obtains for a file from the transformer and
    the sandbox (lines 371-380), or the exception they raise. *)
Definition wrapper_of (W : World) (filename : string) : result Prog :=
  match transform W filename (truthy (_shouldCollectCoverage W filename)) with
  | Ok script => _runScript W script filename
  | Fail e => Fail e
  end.

(** [_execModule] can obtain the coverage collector of a file it is to
    instrument: one exists already, or the collector class was loaded. *)
Definition collector_ready (W : World) (st : State) (filename : string) : Prop :=
  truthy (_shouldCollectCoverage W filename) = true →
  is_Some (_coverageCollectors st !! filename) ∨ is_Some (_CoverageCollector st).

(** The state in which [requireModule] has pre-allocated the module object
    for [modulePath], with a new empty [exports], and registered it (lines
    197-202): the exports object is at [next_loc st], the record at the
    location after it. *)
Definition with_placeholder (modulePath : string) (st : State) : State :=
  set_moduleRegistries
    (registry_write (_moduleRegistry st) modulePath (S (next_loc st))
       (moduleRegistries st))
    (set_modules
       (<[S (next_loc st) :=
            {| filename := modulePath; exports := VObj (next_loc st);
               children := None; parent := None; paths := None;
               require := None |}]> (modules st))
       (set_next_loc (S (S (next_loc st)))
          (set_heap (<[next_loc st := ∅]> (heap st))
             (set_next_loc (S (next_loc st)) st)))).

(** How a call that starts in [st] may leave the registry objects and the
    identifier cache in [st']: locations are only ever allocated; the
    runtime ends on the registry object it started on or on one allocated
    since; a registry object that existed and was not the current one is
    left as it was; identifiers, once memoised, stay. *)
Record frame (st st' : State) : Prop := {
  frame_next : next_loc st ≤ next_loc st';
  frame_mock_ref :
    _mockRegistry st' = _mockRegistry st ∨ next_loc st ≤ _mockRegistry st';
  frame_module_ref :
    _moduleRegistry st' = _moduleRegistry st ∨ next_loc st ≤ _moduleRegistry st';
  frame_mock : ∀ r,
    r < next_loc st → r ≠ _mockRegistry st →
    mockRegistries st' !! r = mockRegistries st !! r;
  frame_module : ∀ r,
    r < next_loc st → r ≠ _moduleRegistry st →
    moduleRegistries st' !! r = moduleRegistries st !! r;
  frame_ids : ∀ key id,
    normalizedIDCache st !! key = Some id → truthy_str id = true →
    normalizedIDCache st' !! key = Some id;
}.

(** Running [m] from [st] ends, if it ends, in a state related to [st0]. *)
Definition ends {A} (P : State → State → Prop) (st0 : State) (m : M A)
    (st : State) : Prop :=
  match m st with
  | Ret _ st' | Err _ st' => P st0 st'
  | OutOfFuel => True
  end.

Definition respects {A} (P : State → State → Prop) (m : M A) : Prop :=
  ∀ st0 st, P st0 st → ends P st0 m st.

Definition Calls_respect (P : State → State → Prop) (rec : Calls) : Prop :=
  (∀ from name, respects P (call_requireModuleOrMock rec from name)) ∧
  (∀ from name, respects P (call_requireMock rec from name)) ∧
  (∀ from name, respects P (call_requireModule rec from name)) ∧
  (∀ from name, respects P (call_generateMock rec from name)).

(** The caller's registries are the objects they were, with the contents
    they had. *)
Definition registries_as_before (st st' : State) : Prop :=
  _mockRegistry st' = _mockRegistry st ∧
  _moduleRegistry st' = _moduleRegistry st ∧
  mockRegistry_of st' = mockRegistry_of st ∧
  moduleRegistry_of st' = moduleRegistry_of st.

(** Nothing about the registries changes at all. *)
Definition registries_kept (st st' : State) : Prop :=
  _mockRegistry st' = _mockRegistry st ∧
  _moduleRegistry st' = _moduleRegistry st ∧
  mockRegistries st' = mockRegistries st ∧
  moduleRegistries st' = moduleRegistries st.

(** The state in which [_generateMock] requires the real module at
    [modulePath] (lines 434-443): the metadata cache is seeded with the
    metadata of a new empty object, and two new empty registries are
    installed. *)
Definition isolated (W : World) (modulePath : string) (st : State) : State :=
  set_moduleRegistry (S (S (next_loc st)))
    (set_moduleRegistries (<[S (S (next_loc st)) := ∅]> (moduleRegistries st))
       (set_next_loc (S (S (S (next_loc st))))
          (set_mockRegistry (S (next_loc st))
             (set_mockRegistries (<[S (next_loc st) := ∅]> (mockRegistries st))
                (set_next_loc (S (S (next_loc st)))
                   (set_mockMetaDataCache
                      (<[modulePath :=
                           getMetadata W (<[next_loc st := ∅]> (heap st))
                             (VObj (next_loc st))]> (_mockMetaDataCache st))
                      (set_heap (<[next_loc st := ∅]> (heap st))
                         (set_next_loc (S (next_loc st)) st)))))))).

(** ** Properties *)

(** *** The monad *)

Lemma bind_Ret {A B} (m : M A) (k : A → M B) st a st' :
  m st = Ret a st' → bind m k st = k a st'.
Proof. unfold bind. by intros ->. Qed.

Lemma bind_Err {A B} (m : M A) (k : A → M B) st e st' :
  m st = Err e st' → bind m k st = Err e st'.
Proof. unfold bind. by intros ->. Qed.

Lemma bind_returns {A B} (m : M A) (k : A → M B) st b st' :
  bind m k st = Ret b st' →
  ∃ a st1, m st = Ret a st1 ∧ k a st1 = Ret b st'.
Proof.
  unfold bind. destruct (m st) as [a st1| |]; [|done..].
  intros Hk. by exists a, st1.
Qed.

(** Scenario S2 runs as the specification describes: loading [a] leaves
    [seen = 1] on the exports of [b] and [a = 2] on those of [a]. *)
Example cycle_S2 :
  ∃ ea st,
    requireModule cycle_world (calls cycle_world 2) "/t/a.js" None
      (new_Runtime cycle_world) = Ret (VObj ea) st ∧
    heap st !! ea = Some {[ "a" := VNum 2 ]} ∧
    ∃ mb eb,
      moduleRegistry_of st !! "/t/b.js" = Some mb ∧
      exports <$> modules st !! mb = Some (VObj eb) ∧
      heap st !! eb = Some {[ "seen" := VNum 1 ]}.
Proof.
  eexists _, _. split; [vm_compute; reflexivity|].
  split; [by vm_compute|].
  eexists _, _. repeat split; by vm_compute.
Qed.

(** *** Framing of the registry objects *)

Lemma frame_refl st : frame st st.
Proof. split; auto. Qed.

Lemma frame_trans st0 st1 st2 : frame st0 st1 → frame st1 st2 → frame st0 st2.
Proof.
  intros [Hn1 Hk1 Hd1 Hm1 Hr1 Hi1] [Hn2 Hk2 Hd2 Hm2 Hr2 Hi2].
  split.
  - lia.
  - destruct Hk2 as [->|?]; [done|right; lia].
  - destruct Hd2 as [->|?]; [done|right; lia].
  - intros r Hr Hne. rewrite Hm2, Hm1; [done..|lia|].
    destruct Hk1 as [->|?]; [done|lia].
  - intros r Hr Hne. rewrite Hr2, Hr1; [done..|lia|].
    destruct Hd1 as [->|?]; [done|lia].
  - eauto.
Qed.

(** A step that leaves the registries, the allocator and the identifier
    cache alone. *)
Lemma frame_same st0 st st' :
  frame st0 st →
  next_loc st' = next_loc st →
  _mockRegistry st' = _mockRegistry st →
  _moduleRegistry st' = _moduleRegistry st →
  mockRegistries st' = mockRegistries st →
  moduleRegistries st' = moduleRegistries st →
  normalizedIDCache st' = normalizedIDCache st →
  frame st0 st'.
Proof.
  intros [] E1 E2 E3 E4 E5 E6. split; rewrite ?E1, ?E2, ?E3, ?E4, ?E5, ?E6; auto.
Qed.

Lemma frame_fresh st0 st :
  frame st0 st → frame st0 (set_next_loc (S (next_loc st)) st).
Proof. intros []. split; cbn; auto with lia. Qed.

(** Writing into a registry object that is the one the call started on, or
    a newer one. *)
Lemma frame_write_mock st0 st r (f : gmap string value → gmap string value) :
  frame st0 st →
  (r = _mockRegistry st0 ∨ next_loc st0 ≤ r) →
  frame st0 (set_mockRegistries
               (<[r := f (default ∅ (mockRegistries st !! r))]> (mockRegistries st)) st).
Proof.
  intros [] Hr. split; cbn; auto.
  intros r' ? ?. rewrite lookup_insert_ne; [auto|]. destruct Hr; [congruence|lia].
Qed.

Lemma frame_write_module st0 st r (f : gmap string loc → gmap string loc) :
  frame st0 st →
  (r = _moduleRegistry st0 ∨ next_loc st0 ≤ r) →
  frame st0 (set_moduleRegistries
               (<[r := f (default ∅ (moduleRegistries st !! r))]> (moduleRegistries st)) st).
Proof.
  intros [] Hr. split; cbn; auto.
  intros r' ? ?. rewrite lookup_insert_ne; [auto|]. destruct Hr; [congruence|lia].
Qed.

Lemma frame_set_mockRegistry st0 st r :
  frame st0 st →
  (r = _mockRegistry st0 ∨ next_loc st0 ≤ r) →
  frame st0 (set_mockRegistry r st).
Proof. intros [] Hr. split; cbn; auto. Qed.

Lemma frame_set_moduleRegistry st0 st r :
  frame st0 st →
  (r = _moduleRegistry st0 ∨ next_loc st0 ≤ r) →
  frame st0 (set_moduleRegistry r st).
Proof. intros [] Hr. split; cbn; auto. Qed.

Lemma frame_set_id st0 st key id :
  frame st0 st →
  truthy_opt (normalizedIDCache st !! key) = false →
  frame st0 (set_normalizedIDCache (<[key := id]> (normalizedIDCache st)) st).
Proof.
  intros [] Hkey. split; cbn; auto.
  intros key' id' Hin Hid. destruct (decide (key = key')) as [->|].
  - apply frame_ids0 in Hin; [|done]. rewrite Hin in Hkey. cbn in Hkey. congruence.
  - rewrite lookup_insert_ne; auto.
Qed.

(** *** Rules for [ends] *)

Section ends.
Context (P : State → State → Prop).
Context (P_trans : ∀ a b c, P a b → P b c → P a c).

Lemma ends_ret {A} st0 st (a : A) : P st0 st → ends P st0 (ret a) st.
Proof. done. Qed.

Lemma ends_throw {A} st0 st e : P st0 st → ends P st0 (@throw A e) st.
Proof. done. Qed.

Lemma ends_lift {A} st0 st (r : result A) : P st0 st → ends P st0 (lift r) st.
Proof. by destruct r. Qed.

Lemma ends_modify st0 st f : P st0 (f st) → ends P st0 (modify f) st.
Proof. done. Qed.

Lemma ends_bind {A B} st0 st (m : M A) (k : A → M B) :
  ends P st0 m st →
  (∀ a st1, m st = Ret a st1 → P st0 st1 → ends P st0 (k a) st1) →
  ends P st0 (bind m k) st.
Proof.
  unfold ends, bind. destruct (m st) as [a st1|e st1|]; [|done..].
  intros H1 H2. by apply H2.
Qed.

Lemma ends_get {A} st0 st (k : State → M A) :
  ends P st0 (k st) st → ends P st0 (bind get k) st.
Proof. done. Qed.

Lemma ends_try_catch {A} st0 st (m : M A) h :
  ends P st0 m st →
  (∀ e st1, P st0 st1 → ends P st0 (h e) st1) →
  ends P st0 (try_catch m h) st.
Proof.
  unfold ends, try_catch. destruct (m st) as [a st1|e st1|]; [done| |done].
  intros H1 H2. by apply H2.
Qed.

Lemma ends_respects {A} st0 st (m : M A) :
  respects P m → P st0 st → ends P st0 m st.
Proof. intros Hm. apply Hm. Qed.

End ends.

Create HintDb respects.

Ltac frame_close :=
  first
    [ eassumption
    | apply frame_fresh; eassumption
    | (eapply frame_same; [eassumption | reflexivity ..]) ].

Ltac ends_step :=
  lazymatch goal with
  | |- ends _ _ (ret _) _ => apply ends_ret
  | |- ends _ _ (throw _) _ => apply ends_throw
  | |- ends _ _ (lift _) _ => apply ends_lift
  | |- ends _ _ (modify _) _ => apply ends_modify
  | |- ends _ _ (bind get _) _ => apply ends_get
  | |- ends _ _ (bind _ _) _ => apply ends_bind; [|intros ? ? ? ?]
  | |- ends _ _ (try_catch _ _) _ => apply ends_try_catch; [|intros ? ? ?]
  | |- ends _ _ (match ?x with _ => _ end) _ => destruct x eqn:?
  | |- ends _ _ _ _ => apply ends_respects; [solve [eauto with respects]|]
  end.

Ltac ends_auto := repeat ends_step; try frame_close.

(** *** The stores and the helpers respect the frame *)

Lemma log_frame a : respects frame (log a).
Proof. intros st0 st H. unfold log. ends_auto. Qed.

Lemma fresh_frame : respects frame fresh.
Proof. intros st0 st H. unfold ends, fresh. by apply frame_fresh. Qed.

#[export] Hint Resolve log_frame fresh_frame : respects.

Lemma new_object_frame o : respects frame (new_object o).
Proof. intros st0 st H. unfold new_object. ends_auto. Qed.

Lemma new_module_frame m : respects frame (new_module m).
Proof. intros st0 st H. unfold new_module. ends_auto. Qed.

Lemma read_module_frame l : respects frame (read_module l).
Proof. intros st0 st H. unfold read_module. ends_auto. Qed.

Lemma update_module_frame l f : respects frame (update_module l f).
Proof. intros st0 st H. unfold update_module. ends_auto. Qed.

Lemma get_prop_frame o key : respects frame (get_prop o key).
Proof. intros st0 st H. unfold get_prop. ends_auto. Qed.

Lemma set_prop_frame o key v : respects frame (set_prop o key v).
Proof. intros st0 st H. unfold set_prop. ends_auto. Qed.

(** A new registry object lies beyond every location that existed. *)
Lemma new_mockRegistry_frame : respects frame new_mockRegistry.
Proof.
  intros st0 st H. unfold new_mockRegistry, fresh, ends, bind, modify, ret.
  destruct H. split; cbn; auto with lia.
  intros r ? ?. rewrite lookup_insert_ne; [auto|lia].
Qed.

Lemma new_moduleRegistry_frame : respects frame new_moduleRegistry.
Proof.
  intros st0 st H. unfold new_moduleRegistry, fresh, ends, bind, modify, ret.
  destruct H. split; cbn; auto with lia.
  intros r ? ?. rewrite lookup_insert_ne; [auto|lia].
Qed.

Lemma new_mockRegistry_returns st r st' :
  new_mockRegistry st = Ret r st' →
  r = next_loc st ∧ next_loc st' = S (next_loc st) ∧
  mockRegistries st' = <[r := ∅]> (mockRegistries st) ∧
  moduleRegistries st' = moduleRegistries st ∧
  _mockRegistry st' = _mockRegistry st ∧ _moduleRegistry st' = _moduleRegistry st.
Proof. unfold new_mockRegistry, fresh, bind, modify, ret. by intros [= <- <-]. Qed.

Lemma new_moduleRegistry_returns st r st' :
  new_moduleRegistry st = Ret r st' →
  r = next_loc st ∧ next_loc st' = S (next_loc st) ∧
  moduleRegistries st' = <[r := ∅]> (moduleRegistries st) ∧
  mockRegistries st' = mockRegistries st ∧
  _mockRegistry st' = _mockRegistry st ∧ _moduleRegistry st' = _moduleRegistry st.
Proof. unfold new_moduleRegistry, fresh, bind, modify, ret. by intros [= <- <-]. Qed.

#[export] Hint Resolve new_object_frame new_module_frame read_module_frame
  update_module_frame get_prop_frame set_prop_frame new_mockRegistry_frame
  new_moduleRegistry_frame : respects.

Lemma Shape_members_ind (P : Shape → Prop) :
  (∀ v, P (ShConst v)) →
  P ShFunction →
  (∀ members, Forall (fun kv => P kv.2) members → P (ShObject members)) →
  ∀ sh, P sh.
Proof.
  intros Hc Hf Ho. fix ind 1. intros [v| |members]; [apply Hc|apply Hf|].
  apply Ho. induction members as [|kv ms IH]; constructor; [apply ind|apply IH].
Qed.

Lemma build_frame sh : respects frame (build sh).
Proof.
  induction sh as [v| |members IH] using Shape_members_ind;
    intros st0 st H; cbn [build]; [ends_auto..|].
  ends_step; [|ends_auto].
  clear -IH H. revert st H.
  induction IH as [|[key sh'] ms Hsh _ IHms]; intros st H; [ends_auto|].
  ends_step; [by apply Hsh|]. ends_step; [by apply IHms|]. ends_auto.
Qed.

#[export] Hint Resolve build_frame : respects.

Lemma generateFromMetadata_frame md : respects frame (generateFromMetadata md).
Proof. intros st0 st H. unfold generateFromMetadata. ends_auto. Qed.

#[export] Hint Resolve generateFromMetadata_frame : respects.

(** *** The runtime's methods respect the frame *)

Lemma set_fsTrace_id st : set_fsTrace (fsTrace st) st = st.
Proof. by destruct st. Qed.

Lemma resolveModule_effect W from to st :
  match _resolveModule W from to st with
  | Ret _ st' | Err _ st' => ∃ tr, st' = set_fsTrace tr st
  | OutOfFuel => False
  end.
Proof.
  unfold _resolveModule, log, bind, modify, lift, ret, throw.
  repeat case_match; simplify_eq; try (by eexists);
    match goal with
    | |- ∃ tr, ?s = set_fsTrace tr ?s =>
        exists (fsTrace s); by rewrite set_fsTrace_id
    end.
Qed.

Lemma truthy_str_app a b : truthy_str a = true → truthy_str (a +:+ b) = true.
Proof. by destruct a. Qed.

Lemma normalizeID_effect W from name st :
  let key := from +:+ path_delimiter +:+ or_empty name in
  match _normalizeID W from name st with
  | Ret id st' =>
      truthy_str id = true ∧
      normalizedIDCache st' !! key = Some id ∧
      ((st' = st) ∨
       (truthy_opt (normalizedIDCache st !! key) = false ∧
        ∃ tr, st' = set_normalizedIDCache (<[key := id]> (normalizedIDCache st)) (set_fsTrace tr st)))
  | Err _ st' => ∃ tr, st' = set_fsTrace tr st
  | OutOfFuel => False
  end.
Proof.
  intros key. unfold _normalizeID. fold key.
  unfold bind at 1. unfold get at 1.
  destruct (truthy_opt (normalizedIDCache st !! key)) eqn:Hhit.
  { cbn. destruct (normalizedIDCache st !! key) as [id|] eqn:Hk; [|done].
    cbn in *. auto. }
  match goal with |- context [bind ?X _ st] => set (X0 := X) end.
  assert (HX : match X0 st with
               | Ret (ty, _, _) st1 =>
                   truthy_str ty = true ∧ ∃ tr, st1 = set_fsTrace tr st
               | Err _ st1 => ∃ tr, st1 = set_fsTrace tr st
               | OutOfFuel => False
               end).
  { subst X0. pose proof (resolveModule_effect W from (Some (or_empty name)) st) as HR.
    unfold bind, ret.
    repeat case_match; simplify_eq; try done;
      try (split; [done|]);
      try match goal with
          | |- ∃ tr, ?s = set_fsTrace tr ?s =>
              exists (fsTrace s); by rewrite set_fsTrace_id
          end;
      try done. }
  unfold bind. destruct (X0 st) as [[[ty abs] mock] st1|e st1|]; [|done..].
  destruct HX as [Hty [tr ->]]. cbn.
  split; [by apply truthy_str_app|]. split; [by rewrite lookup_insert_eq|].
  right. split; [done|]. by exists tr.
Qed.


Lemma normalizeID_hit W from name st id :
  normalizedIDCache st !! (from +:+ path_delimiter +:+ or_empty name) = Some id →
  truthy_str id = true →
  _normalizeID W from name st = Ret id st.
Proof.
  intros Hk Hid. unfold _normalizeID, bind, get. rewrite Hk. cbn. by rewrite Hid.
Qed.

Ltac frame_ref :=
  first
    [ apply frame_set_mockRegistry; [eassumption|]
    | apply frame_set_moduleRegistry; [eassumption|] ];
  first
    [ by eapply frame_mock_ref
    | by eapply frame_module_ref
    | match goal with
      | Hn : new_mockRegistry ?s = Ret ?r _, Hs : frame ?s0 ?s
        |- _ ∨ next_loc ?s0 ≤ ?r =>
          apply new_mockRegistry_returns in Hn as (-> & _); right; apply Hs
      | Hn : new_moduleRegistry ?s = Ret ?r _, Hs : frame ?s0 ?s
        |- _ ∨ next_loc ?s0 ≤ ?r =>
          apply new_moduleRegistry_returns in Hn as (-> & _); right; apply Hs
      end ].

Lemma resolveModule_frame W from to : respects frame (_resolveModule W from to).
Proof.
  intros st0 st H. unfold ends.
  pose proof (resolveModule_effect W from to st) as HR.
  destruct (_resolveModule W from to st) as [? st'|? st'|]; [| |done];
    destruct HR as [tr ->]; frame_close.
Qed.

Lemma normalizeID_frame W from name : respects frame (_normalizeID W from name).
Proof.
  intros st0 st H. unfold ends.
  pose proof (normalizeID_effect W from name st) as HN. cbn zeta in HN.
  destruct (_normalizeID W from name st) as [id st'|? st'|]; [| |done].
  - destruct HN as (_ & _ & [->|[Hmiss [tr ->]]]); [done|].
    apply (frame_set_id st0 (set_fsTrace tr st)); [frame_close|done].
  - destruct HN as [tr ->]. frame_close.
Qed.

#[export] Hint Resolve resolveModule_frame normalizeID_frame : respects.

Lemma setMock_frame W from name f virtual : respects frame (setMock W from name f virtual).
Proof. intros st0 st H. unfold setMock. ends_auto. Qed.

Lemma shouldMock_frame W from name : respects frame (_shouldMock W from name).
Proof. intros st0 st H. unfold _shouldMock. ends_auto. Qed.

Lemma resetModuleRegistry_frame W : respects frame (resetModuleRegistry W).
Proof.
  intros st0 st H. unfold resetModuleRegistry.
  ends_auto; frame_ref.
Qed.

#[export] Hint Resolve setMock_frame shouldMock_frame resetModuleRegistry_frame : respects.

Section frames.
Context (W : World) (rec : Calls) (Hrec : Calls_respect frame rec).

Lemma rec_requireModuleOrMock_frame from name :
  respects frame (call_requireModuleOrMock rec from name).
Proof using Hrec. apply Hrec. Qed.
Lemma rec_requireMock_frame from name :
  respects frame (call_requireMock rec from name).
Proof using Hrec. apply Hrec. Qed.
Lemma rec_requireModule_frame from name :
  respects frame (call_requireModule rec from name).
Proof using Hrec. apply Hrec. Qed.
Lemma rec_generateMock_frame from name :
  respects frame (call_generateMock rec from name).
Proof using Hrec. apply Hrec. Qed.

#[local] Hint Resolve rec_requireModuleOrMock_frame rec_requireMock_frame
  rec_requireModule_frame rec_generateMock_frame : respects.

Lemma jest_call_frame from runtime scope c :
  respects frame (jest_call W rec from runtime scope c).
Proof using Hrec. intros st0 st H. unfold jest_call. ends_auto. Qed.

#[local] Hint Resolve jest_call_frame : respects.

Lemma runProg_frame scope p : respects frame (runProg W rec scope p).
Proof using Hrec.
  induction p; intros st0 st Hst; cbn [runProg]; ends_auto.
Qed.


#[local] Hint Resolve runProg_frame : respects.

Lemma createRuntimeFor_frame from : respects frame (_createRuntimeFor from).
Proof. intros st0 st H. unfold _createRuntimeFor. ends_auto. Qed.

#[local] Hint Resolve createRuntimeFor_frame : respects.

Lemma execModule_frame localModule : respects frame (_execModule W rec localModule).
Proof using Hrec. intros st0 st H. unfold _execModule. ends_auto. Qed.

#[local] Hint Resolve execModule_frame : respects.

Lemma requireModule_target_frame from name :
  respects frame (requireModule_target W from name).
Proof. intros st0 st H. unfold requireModule_target. ends_auto. Qed.

Lemma requireModule_load_frame modulePath :
  respects frame (requireModule_load W rec modulePath).
Proof using Hrec.
  intros st0 st H. unfold requireModule_load, requireModule_deliver. ends_auto.
  all: unfold registry_write; apply frame_write_module; [done|by eapply frame_module_ref].
Qed.

#[local] Hint Resolve requireModule_target_frame requireModule_load_frame : respects.

Lemma requireModule_frame from name : respects frame (requireModule W rec from name).
Proof using Hrec. intros st0 st H. unfold requireModule. ends_auto. Qed.

#[local] Hint Resolve requireModule_frame : respects.


Lemma generateMock_frame from name : respects frame (_generateMock W rec from name).
Proof using Hrec.
  intros st0 st H. unfold _generateMock. ends_auto; frame_ref.
Qed.

#[local] Hint Resolve generateMock_frame : respects.

Lemma requireMock_frame from name : respects frame (requireMock W rec from name).
Proof using Hrec.
  intros st0 st H. unfold requireMock. ends_auto.
  all: unfold registry_write; apply frame_write_mock; [done|by eapply frame_mock_ref].
Qed.

#[local] Hint Resolve requireMock_frame : respects.

Lemma requireModuleOrMock_frame from name :
  respects frame (requireModuleOrMock W rec from name).
Proof using Hrec. intros st0 st H. unfold requireModuleOrMock. ends_auto. Qed.

End frames.

Lemma calls_frame W n : Calls_respect frame (calls W n).
Proof.
  induction n as [|n IH]; [by repeat split|].
  repeat split; intros from name; cbn.
  - by apply requireModuleOrMock_frame.
  - by apply requireMock_frame.
  - by apply requireModule_frame.
  - by apply generateMock_frame.
Qed.


(** *** Coverage gate *)

(** What [_shouldCollectCoverage] computes: the allow-list alone switches
    collection on for the files it maps to [true]. *)
Lemma shouldCollectCoverage_true_iff W filename :
  _shouldCollectCoverage W filename = VBool true ↔
  ((collectCoverage (config W) = true ∧ collectCoverageOnlyFrom (config W) = None) ∨
   (∃ only, collectCoverageOnlyFrom (config W) = Some only ∧
            only !! filename = Some true)) ∧
  _coverageRegex W filename = false ∧
  (∀ re, _mocksPattern W = Some re → re filename = false) ∧
  _testRegex W filename = false.
Proof.
  unfold _shouldCollectCoverage.
  destruct (collectCoverage (config W)) eqn:Hc,
    (collectCoverageOnlyFrom (config W)) as [only|] eqn:Ho;
    [destruct (only !! filename) as [[]|] eqn:Hf| |
     destruct (only !! filename) as [[]|] eqn:Hf|];
    destruct (_coverageRegex W filename) eqn:Hcov,
      (_mocksPattern W) as [re|] eqn:Hm, (_testRegex W filename) eqn:Ht;
    try destruct (re filename) eqn:Hre; cbn;
    (split; [intros H|intros (H1 & H2 & H3 & H4)]);
    try done;
    try (exfalso;
         first [ congruence
               | specialize (H3 _ eq_refl); congruence
               | destruct H1 as [[? ?]|(o & ? & ?)]; simplify_eq; congruence ]);
    (split; [first [by left|right; eexists; by split]|]);
    split_and!; try done; by intros ? [= <-].
Qed.

(** With coverage enabled and no allow-list the gate is the conjunction of
    the three pattern tests. *)
Lemma shouldCollectCoverage_enabled W filename :
  collectCoverage (config W) = true →
  collectCoverageOnlyFrom (config W) = None →
  _shouldCollectCoverage W filename =
    VBool (negb (_coverageRegex W filename) &&
           negb (match _mocksPattern W with Some re => re filename | None => false end) &&
           negb (_testRegex W filename)).
Proof.
  unfold _shouldCollectCoverage. intros -> ->.
  destruct (_coverageRegex W filename), (_mocksPattern W) as [re|],
    (_testRegex W filename); try destruct (re filename); done.
Qed.

(** C1. The specification makes [shouldCollectCoverage] false whenever
    coverage collection is disabled.  The code does not: with [collectCoverage] off
    and an allow-list that names the file, [_shouldCollectCoverage] is
    [true], and requiring that file then fails in [_execModule], because the
    constructor loaded no collector class. *)
Theorem shouldCollectCoverage_allowlist_without_coverage :
  collectCoverage (config allowlist_world) = false ∧
  _shouldCollectCoverage allowlist_world "/t/a.js" = VBool true ∧
  ∃ st,
    requireModule allowlist_world (calls allowlist_world 0) "/t/a.js" None
      (new_Runtime allowlist_world)
    = Err (TypeError "this._CoverageCollector is not a constructor") st.
Proof.
  split; [done|]. split; [by vm_compute|].
  eexists. vm_compute. reflexivity.
Qed.

(** *** Registry reset *)


(** *** Module execution *)

Lemma execModule_disposed W rec localModule st :
  env_global st = None → _execModule W rec localModule st = Ret tt st.
Proof. intros H. unfold _execModule, bind, get. by rewrite H. Qed.

(** The coverage set-up at the head of [_execModule] (lines 352-356). *)
Lemma execModule_collector W st filename (m : M unit) :
  m = (if truthy (_shouldCollectCoverage W filename) &&
          negb (bool_decide (is_Some (_coverageCollectors st !! filename)))
       then
         match _CoverageCollector st with
         | Some CoverageCollector =>
             let* collector := fresh in
             modify (fun st => set_heap (<[collector := ∅]> (heap st)) st) ;;
             modify (fun st => set_coverageCollectors
                       (<[filename := collector]> (_coverageCollectors st)) st)
         | None => throw (TypeError "this._CoverageCollector is not a constructor")
         end
       else ret tt) →
  match m st with
  | Ret _ st' =>
      ∃ h n c,
        st' = set_coverageCollectors c (set_heap h (set_next_loc n st)) ∧
        next_loc st ≤ n ∧ ∀ x, x < next_loc st → h !! x = heap st !! x
  | Err _ st' => st' = st ∧ ¬ collector_ready W st filename
  | OutOfFuel => False
  end.
Proof.
  intros ->. destruct (truthy _ && _) eqn:Hb.
  - apply andb_true_iff in Hb as [Ht Hnc]. apply negb_true_iff in Hnc.
    apply bool_decide_eq_false in Hnc.
    destruct (_CoverageCollector st) as [[]|] eqn:Hc.
    + eexists _, _, _. split; [reflexivity|]. cbn. split; [lia|].
      intros x Hx. rewrite lookup_insert_ne; [done|lia].
    + split; [done|]. intros Hr. destruct (Hr Ht) as [?|[? ?]]; [done|congruence].
  - exists (heap st), (next_loc st), (_coverageCollectors st).
    split; [by destruct st|]. done.
Qed.

Lemma execModule_runs W rec l st m g wrapper :
  env_global st = Some g →
  modules st !! l = Some m →
  collector_ready W st (filename m) →
  wrapper_of W (filename m) = Ok wrapper →
  ∃ st_run scope,
    _execModule W rec l st =
      (runProg W rec scope wrapper ;;
       modify (set_isCurrentlyExecutingManualMock (_isCurrentlyExecutingManualMock st)) ;;
       modify (set_currentlyExecutingModulePath (_currentlyExecutingModulePath st))) st_run ∧
    sc_filename scope = filename m ∧ sc_module scope = l ∧
    sc_exports scope = exports m ∧ sc_global scope = VObj g ∧
    executing st_run = (filename m, Some (filename m)) ∧
    _moduleRegistry st_run = _moduleRegistry st ∧
    moduleRegistries st_run = moduleRegistries st ∧
    _mockRegistry st_run = _mockRegistry st ∧
    mockRegistries st_run = mockRegistries st ∧
    modules st_run = <[l := populate W (filename m) m]> (modules st) ∧
    (∀ x, x < next_loc st → heap st_run !! x = heap st !! x) ∧
    next_loc st ≤ next_loc st_run.
Proof.
  intros Henv Hm Hcol Hw. unfold wrapper_of in Hw.
  destruct (transform W _ _) as [script|] eqn:Htr; [|done].
  unfold _execModule.
  unfold bind at 1, get at 1. rewrite Henv.
  unfold bind at 1, read_module at 1, bind at 1, get at 1. rewrite Hm. unfold ret at 1.
  match goal with |- context [bind ?X _ st] =>
    pose proof (execModule_collector W st (filename m) X eq_refl) as Hpre;
    unfold bind at 1; destruct (X st) as [[] st_c|e st_c|]
  end; [|by destruct Hpre..].
  destruct Hpre as (h & n & c & -> & Hn & Hh).
  unfold bind, get, modify, update_module, log, lift, read_module,
    _createRuntimeFor, new_object, fresh, ret, modify, bind. cbn.
  rewrite Htr. cbn. rewrite Hw. cbn. rewrite lookup_alter_eq, Hm. cbn. rewrite Henv.
  eexists _, _. split; [reflexivity|]. cbn.
  split_and!; try done.
  - apply map_eq. intros i. destruct (decide (i = l)) as [->|].
    + by rewrite lookup_alter_eq, lookup_insert_eq, Hm.
    + by rewrite lookup_alter_ne, lookup_insert_ne.
  - intros x Hx. rewrite lookup_insert_ne; [auto|lia].
  - lia.
Qed.

Lemma execModule_raises W rec l st m g e :
  env_global st = Some g →
  modules st !! l = Some m →
  collector_ready W st (filename m) →
  wrapper_of W (filename m) = Fail e →
  ∃ st',
    _execModule W rec l st = Err e st' ∧
    executing st' = (filename m, Some (filename m)).
Proof.
  intros Henv Hm Hcol Hw. unfold wrapper_of in Hw.
  unfold _execModule.
  unfold bind at 1, get at 1. rewrite Henv.
  unfold bind at 1, read_module at 1, bind at 1, get at 1. rewrite Hm. unfold ret at 1.
  match goal with |- context [bind ?X _ st] =>
    pose proof (execModule_collector W st (filename m) X eq_refl) as Hpre;
    unfold bind at 1; destruct (X st) as [[] st_c|e' st_c|]
  end; [|by destruct Hpre..].
  destruct Hpre as (h & n & c & -> & Hn & Hh).
  unfold bind, get, modify, update_module, log, lift, read_module, ret, throw. cbn.
  destruct (transform W _ _) as [script|] eqn:Htr; cbn.
  - rewrite Hw. by eexists.
  - simplify_eq. by eexists.
Qed.

Lemma execModule_restores W rec l st st' :
  _execModule W rec l st = Ret tt st' → executing st' = executing st.
Proof.
  unfold _execModule. unfold bind at 1, get at 1.
  destruct (env_global st) as [g|]; [|by intros [= ->]].
  intros H. apply bind_returns in H as (m & st1 & Hm & H).
  assert (st1 = st) as ->.
  { unfold read_module, bind, get in Hm.
    destruct (modules st !! l); unfold ret, throw in Hm; by simplify_eq. }
  apply bind_returns in H as ([] & st_c & Hc & H).
  match type of Hc with ?X st = _ =>
    pose proof (execModule_collector W st (filename m) X eq_refl) as Hpre
  end.
  rewrite Hc in Hpre. destruct Hpre as (h & n & c & -> & _).
  unfold bind at 1, get at 1 in H.
  repeat lazymatch type of H with
         | bind (runProg _ _ _ _) _ _ = _ => fail
         | _ => apply bind_returns in H as (? & ? & _ & H)
         end.
  apply bind_returns in H as (? & ? & _ & H).
  apply bind_returns in H as (? & ? & H1 & H).
  unfold modify in H, H1. by simplify_eq.
Qed.





(** *** Loading a file *)

Lemma requireModule_deliver_hit modulePath st localModule m :
  moduleRegistry_of st !! modulePath = Some localModule →
  modules st !! localModule = Some m →
  requireModule_deliver modulePath st = Ret (exports m) st.
Proof.
  intros Hreg Hm. unfold requireModule_deliver, bind, get, read_module.
  rewrite Hreg. unfold bind, get. by rewrite Hm.
Qed.

(** A registered path is delivered from the registry: nothing is executed,
    whatever the runtime could do for user code. *)
Lemma requireModule_load_hit W rec modulePath st localModule m :
  moduleRegistry_of st !! modulePath = Some localModule →
  modules st !! localModule = Some m →
  requireModule_load W rec modulePath st = Ret (exports m) st.
Proof.
  intros Hreg Hm. unfold requireModule_load. unfold bind at 1, get at 1.
  rewrite Hreg. unfold bind, ret. by eapply requireModule_deliver_hit.
Qed.

(** An unregistered path that is neither JSON nor a native add-on is
    executed after its placeholder has been registered. *)
Lemma requireModule_load_missing W rec modulePath st :
  moduleRegistry_of st !! modulePath = None →
  path_extname W modulePath ≠ ".json" →
  path_extname W modulePath ≠ ".node" →
  requireModule_load W rec modulePath st =
    (_execModule W rec (S (next_loc st)) ;; requireModule_deliver modulePath)
      (with_placeholder modulePath st).
Proof.
  intros Hreg Hjson Hnode. unfold requireModule_load. unfold bind at 1, get at 1.
  rewrite Hreg.
  apply String.eqb_neq in Hjson, Hnode. rewrite Hjson, Hnode.
  reflexivity.
Qed.

Lemma with_placeholder_registered modulePath st :
  moduleRegistry_of (with_placeholder modulePath st) !! modulePath
    = Some (S (next_loc st)).
Proof.
  unfold moduleRegistry_of, with_placeholder, registry_write. cbn.
  rewrite lookup_insert_eq. cbn. by rewrite lookup_insert_eq.
Qed.



(** *** The [jest] object *)

(** C8, as the code has it.  [enableAutomock], [disableAutomock], [mock],
    [setMock], [unmock], [deepUnmock], [resetModuleRegistry],
    [useFakeTimers] and [useRealTimers] return the [jest] object itself.
    [clearAllTimers], [runAllTicks], [runAllImmediates], [runAllTimers] and
    [runOnlyPendingTimers] return what the method of the environment's fake
    timers returns. *)
Theorem jest_call_returns W rec from runtime scope c st v st' :
  jest_call W rec from runtime scope c st = Ret v st' →
  (chaining c = true → v = VObj runtime) ∧
  (∀ m, c = Timer m → chaining c = false → v = (fakeTimers W m (heap st)).1).
Proof.
  intros H. split.
  - intros Hc. unfold jest_call in H.
    destruct c as [| |name [f|] virtual|name mock|name|name| |name|[]];
      try discriminate Hc;
      repeat (apply bind_returns in H as (? & ? & _ & H));
      by injection H as <- _.
  - intros m -> Hc. unfold jest_call in H.
    destruct m; try discriminate Hc;
      apply bind_returns in H as (s & ? & [= <- <-] & H);
      apply bind_returns in H as (? & ? & _ & H);
      by injection H as <- _.
Qed.

Lemma jest_call_returns_witness :
  let W := cycle_world in
  let st := new_Runtime W in
  jest_call W (calls W 0) "/t/a.js" 7 (scope_of "/t/a.js" 7) (Unmock "./b") st
    = Ret (VObj 7) (state_after (jest_call W (calls W 0) "/t/a.js" 7
                                   (scope_of "/t/a.js" 7) (Unmock "./b") st) st) ∧
  (chaining (Unmock "./b") = true → VObj 7 = VObj 7).
Proof.
  intros W st.
  assert (H : jest_call W (calls W 0) "/t/a.js" 7 (scope_of "/t/a.js" 7) (Unmock "./b") st
              = Ret (VObj 7) (state_after (jest_call W (calls W 0) "/t/a.js" 7
                                   (scope_of "/t/a.js" 7) (Unmock "./b") st) st))
    by (vm_compute; reflexivity).
  split; [exact H|].
  exact (proj1 (jest_call_returns W (calls W 0) "/t/a.js" 7 (scope_of "/t/a.js" 7)
                  (Unmock "./b") st (VObj 7) _ H)).
Defined.

(** The timer-control methods return what the fake timers return, here
    [undefined], not the [jest] object. *)
Lemma timer_control_returns_undefined :
  let W := cycle_world in
  Forall
    (fun m =>
       ∃ st',
         jest_call W (calls W 0) "/t/a.js" 7 (scope_of "/t/a.js" 7)
           (Timer m) (new_Runtime W) = Ret VUndefined st' ∧
         VUndefined ≠ VObj 7)
    [ClearAllTimers; RunAllTicks; RunAllImmediates; RunAllTimers;
     RunOnlyPendingTimers].
Proof.
  repeat constructor; (eexists; split; [vm_compute; reflexivity|done]).
Qed.

(** *** Explicit mocking *)

Lemma truthy_opt_Some o : truthy_opt o = true → o = Some (default "" o).
Proof. by destruct o. Qed.

(** Once [_normalizeID] has returned for a pair, it returns the same
    identifier without any effect wherever the cache has only grown. *)
Lemma normalizeID_again W from name st id st0 st1 :
  _normalizeID W from name st = Ret id st0 →
  (∀ key id', normalizedIDCache st0 !! key = Some id' → truthy_str id' = true →
              normalizedIDCache st1 !! key = Some id') →
  _normalizeID W from name st1 = Ret id st1.
Proof.
  intros H Hgrow. pose proof (normalizeID_effect W from name st) as HN.
  rewrite H in HN. cbn zeta in HN. destruct HN as (Hid & Hk & _).
  apply normalizeID_hit; auto.
Qed.

Lemma normalizeID_keeps W from name st id st0 :
  _normalizeID W from name st = Ret id st0 →
  ∃ c tr, st0 = set_normalizedIDCache c (set_fsTrace tr st).
Proof.
  intros H. pose proof (normalizeID_effect W from name st) as HN.
  rewrite H in HN. cbn zeta in HN. destruct HN as (_ & _ & [->|[_ [tr ->]]]).
  - exists (normalizedIDCache st), (fsTrace st). by destruct st.
  - by eexists _, _.
Qed.




(** *** Mock delivery *)

Lemma requireMock_cached W rec from name st id st0 :
  _normalizeID W from (Some name) st = Ret id st0 →
  truthy (default VUndefined (mockRegistry_of st0 !! id)) = true →
  requireMock W rec from name st
    = Ret (default VUndefined (mockRegistry_of st0 !! id)) st0.
Proof.
  intros Hid Hhit. unfold requireMock. rewrite (bind_Ret _ _ _ _ _ Hid).
  unfold bind, get. by rewrite Hhit.
Qed.

Lemma requireMock_factory W rec from name st id st0 f :
  _normalizeID W from (Some name) st = Ret id st0 →
  truthy (default VUndefined (mockRegistry_of st0 !! id)) = false →
  _mockFactories st0 !! id = Some f →
  requireMock W rec from name st =
    (let* v := runProg W rec (fac_scope f) (fac_body f) in
     modify (fun st => set_mockRegistries
               (registry_write (_mockRegistry st0) id v (mockRegistries st)) st) ;;
     ret v) st0.
Proof.
  intros Hid Hmiss Hf. unfold requireMock. rewrite (bind_Ret _ _ _ _ _ Hid).
  unfold bind at 1, get at 1. by rewrite Hmiss, Hf.
Qed.

Lemma or_empty_Some name : or_empty (Some name) = name.
Proof. by destruct name. Qed.

(** For a specifier whose virtual path is in the virtual-mock set,
    [_normalizeID] succeeds without resolving anything. *)
Lemma normalizeID_virtual W from name st :
  is_Some (_virtualMocks st !! _getVirtualMockPath W from name) →
  ∃ id c,
    _normalizeID W from (Some name) st = Ret id (set_normalizedIDCache c st) ∧
    c !! (from +:+ path_delimiter +:+ name) = Some id ∧
    truthy_str id = true.
Proof.
  intros Hv.
  assert (Hb : bool_decide (is_Some (_virtualMocks st !! _getVirtualMockPath W from name))
               = true) by (by apply bool_decide_eq_true_2).
  unfold _normalizeID. rewrite or_empty_Some.
  unfold bind at 1, get at 1.
  destruct (truthy_opt (normalizedIDCache st !! _)) eqn:Hhit.
  { apply truthy_opt_Some in Hhit as Hk.
    eexists _, (normalizedIDCache st). split; [by destruct st|]. split; [done|].
    rewrite Hk in Hhit. apply Hhit. }
  rewrite Hb. unfold _resolveModule.
  destruct (isCoreModule (resolver W) name),
    (truthy_opt (getModule (resolver W) name)),
    (truthy_opt (getMockModule (resolver W) name)),
    (truthy_str name); cbn;
    (eexists _, _; split; [reflexivity|]; by rewrite lookup_insert_eq).
Qed.

(** [mock(name, factory, {virtual: true})] never fails and reads no file. *)
Lemma mock_virtual W rec from runtime scope name body st :
  ∃ id c,
    jest_call W rec from runtime scope (Mock name (Some body) true) st
      = Ret (VObj runtime)
          (set_mockFactories
             (<[id := {| fac_body := body; fac_scope := scope |}]> (_mockFactories st))
             (set_explicitShouldMock (<[id := true]> (_explicitShouldMock st))
                (set_normalizedIDCache c
                   (set_virtualMocks
                      (<[_getVirtualMockPath W from name := true]> (_virtualMocks st))
                      st)))) ∧
    c !! (from +:+ path_delimiter +:+ name) = Some id ∧
    truthy_str id = true.
Proof.
  unfold jest_call, setMock.
  set (st_v := set_virtualMocks _ st).
  destruct (normalizeID_virtual W from name st_v) as (id & c & Hn & Hc & Hid).
  { subst st_v. cbn. by rewrite lookup_insert_eq. }
  exists id, c. split; [|done].
  unfold bind at 1 2, modify at 1. fold st_v.
  rewrite (bind_Ret _ _ _ _ _ Hn). reflexivity.
Qed.

(** C7, as the code has it.  [mock(name, factory, {virtual: true})] never
    fails and reads no file: the virtual path is in the virtual-mock set
    before the identifier is computed, [_shouldMock] then returns [true] for
    the name, and the factory is registered under the identifier.  If the
    mock registry holds no truthy value under that identifier, a following
    [require(name)] from the same file returns exactly what the factory
    returns, and accesses the filesystem only where the factory does. *)
Theorem virtual_mock_delivers_factory W rec rec' from runtime scope name body st :
  ∃ id st1,
    jest_call W rec from runtime scope (Mock name (Some body) true) st
      = Ret (VObj runtime) st1 ∧
    fsTrace st1 = fsTrace st ∧
    is_Some (_virtualMocks st1 !! _getVirtualMockPath W from name) ∧
    _shouldMock W from name st1 = Ret true st1 ∧
    _mockFactories st1 !! id = Some {| fac_body := body; fac_scope := scope |} ∧
    mockRegistry_of st1 = mockRegistry_of st ∧
    ∀ v st2,
      truthy (default VUndefined (mockRegistry_of st !! id)) = false →
      runProg W rec' scope body st1 = Ret v st2 →
      ∃ st3,
        requireModuleOrMock W rec' from name st1 = Ret v st3 ∧
        fsTrace st3 = fsTrace st2.
Proof.
  destruct (mock_virtual W rec from runtime scope name body st)
    as (id & c & Hmock & Hc & Hid).
  eexists id, _. split; [exact Hmock|]. cbn.
  assert (Hv : is_Some (<[_getVirtualMockPath W from name:=true]> (_virtualMocks st)
                        !! _getVirtualMockPath W from name))
    by (by rewrite lookup_insert_eq).
  match goal with |- context [_shouldMock W from name ?s] => set (st1 := s) end.
  assert (Hshould : _shouldMock W from name st1 = Ret true st1).
  { unfold _shouldMock, bind at 1, get at 1. subst st1. cbn.
    by rewrite bool_decide_eq_true_2. }
  split_and!; try done.
  - by rewrite lookup_insert_eq.
  - intros v st2 Hmiss Hrun.
    unfold requireModuleOrMock. rewrite (bind_Ret _ _ _ _ _ Hshould).
    erewrite requireMock_factory; cycle 1.
    + apply normalizeID_hit; [|exact Hid]. rewrite or_empty_Some. exact Hc.
    + exact Hmiss.
    + subst st1. cbn. by rewrite lookup_insert_eq.
    + rewrite (bind_Ret _ _ _ _ _ Hrun). by eexists.
Qed.

Lemma Ret_inj {A} (a a' : A) st st' : Ret a st = Ret a' st' → a = a' ∧ st = st'.
Proof. by intros [= -> ->]. Qed.

Lemma virtual_mock_delivers_factory_witness :
  let W := empty_world in
  let st := new_Runtime W in
  ∃ st1 o st3,
    jest_call W (calls W 0) "/t/x.js" 7 (scope_of "/t/x.js" 7)
      (Mock "nope" (Some factory_42) true) st = Ret (VObj 7) st1 ∧
    requireModuleOrMock W (calls W 0) "/t/x.js" "nope" st1 = Ret (VObj o) st3 ∧
    heap st3 !! o = Some {[ "v" := VNum 42 ]} ∧
    fsTrace st3 = [].
Proof.
  intros W st.
  destruct (virtual_mock_delivers_factory W (calls W 0) (calls W 0) "/t/x.js" 7
              (scope_of "/t/x.js" 7) "nope" factory_42 st)
    as (id & st1 & Hmock & Htrace & _ & _ & _ & _ & Hreq).
  assert (Hst1 : jest_call W (calls W 0) "/t/x.js" 7 (scope_of "/t/x.js" 7)
                   (Mock "nope" (Some factory_42) true) st
                 = Ret (VObj 7)
                     (state_after (jest_call W (calls W 0) "/t/x.js" 7
                        (scope_of "/t/x.js" 7) (Mock "nope" (Some factory_42) true) st) st))
    by (vm_compute; reflexivity).
  rewrite Hst1 in Hmock. apply Ret_inj in Hmock as [_ <-].
  match type of Hst1 with _ = Ret _ ?s => set (st1 := s) in * end.
  destruct (Hreq (VObj 5)
              (state_after (runProg W (calls W 0) (scope_of "/t/x.js" 7) factory_42 st1) st1))
    as (st3 & Hst3 & Htr3).
  - assert (Hreg : mockRegistry_of st = ∅) by (vm_compute; reflexivity).
    rewrite Hreg. reflexivity.
  - vm_compute. reflexivity.
  - exists st1, 5, st3. split; [exact Hst1|]. split; [exact Hst3|].
    split; [|rewrite Htr3; vm_compute; reflexivity].
    assert (Hconcrete : requireModuleOrMock W (calls W 0) "/t/x.js" "nope" st1
               = Ret (VObj 5) (state_after
                   (requireModuleOrMock W (calls W 0) "/t/x.js" "nope" st1) st1))
      by (vm_compute; reflexivity).
    rewrite Hconcrete in Hst3. apply Ret_inj in Hst3 as [_ <-]. vm_compute. reflexivity.
Defined.

(** A second [mock] of the same virtual module, after it has been required,
    does not change what [require] returns: the registry still holds the
    first factory's result. *)
Lemma virtual_mock_stale :
  let W := empty_world in
  let jest := jest_call W (calls W 0) "/t/x.js" 7 (scope_of "/t/x.js" 7) in
  let require := requireModuleOrMock W (calls W 0) "/t/x.js" in
  ∃ st',
    (jest (Mock "nope" (Some (PRet (VNum 1))) true) ;;
     require "nope" ;;
     jest (Mock "nope" (Some (PRet (VNum 2))) true) ;;
     require "nope") (new_Runtime W) = Ret (VNum 1) st' ∧
    resolveModule (resolver W) "/t/x.js" "nope" = Fail (not_found "nope").
Proof. eexists. split; vm_compute; reflexivity. Qed.



(** A falsy result is not a cache hit: with [setMock('zero', 0)] every
    [requireMock] runs the factory again. *)
Example requireMock_falsy_reinvoked :
  let W := empty_world in
  let jest := jest_call W (calls W 0) "/t/x.js" 7 (scope_of "/t/x.js" 7) in
  let counting : Prog :=
    PGlobal (fun g => PGet g "n" (fun n =>
      PSet g "n" (match n with VNum k => VNum (k + 1) | _ => VNum 1 end)
        (PRet VUndefined))) in
  ∃ st',
    (jest (Mock "zero" (Some counting) true) ;;
     requireMock W (calls W 0) "/t/x.js" "zero" ;;
     requireMock W (calls W 0) "/t/x.js" "zero" ;;
     requireMock W (calls W 0) "/t/x.js" "zero") (new_Runtime W)
      = Ret VUndefined st' ∧
    heap st' !! 0 = Some {[ "n" := VNum 3 ]}.
Proof. eexists. split; vm_compute; reflexivity. Qed.

(** *** Automock generation *)

Lemma generateMock_cached W rec from name st modulePath st_r md :
  _resolveModule W from (Some name) st = Ret modulePath st_r →
  _mockMetaDataCache st_r !! modulePath = Some md →
  _generateMock W rec from name st = generateFromMetadata md st_r.
Proof.
  intros Hres Hc. unfold _generateMock. rewrite (bind_Ret _ _ _ _ _ Hres).
  unfold bind at 1, get at 1. rewrite Hc. cbn.
  unfold bind, ret, get. by rewrite Hc.
Qed.

(** The isolated execution, and what follows it. *)
Lemma generateMock_uncached W rec from name st modulePath st_r :
  _resolveModule W from (Some name) st = Ret modulePath st_r →
  _mockMetaDataCache st_r !! modulePath = None →
  _generateMock W rec from name st =
    match requireModule W rec from (Some name) (isolated W modulePath st_r) with
    | Ret moduleExports st_b =>
        let st_c := set_moduleRegistry (_moduleRegistry st)
                      (set_mockRegistry (_mockRegistry st) st_b) in
        match getMetadata W (heap st_c) moduleExports with
        | Some md =>
            generateFromMetadata (Some md)
              (set_mockMetaDataCache
                 (<[modulePath := Some md]> (_mockMetaDataCache st_c)) st_c)
        | None =>
            Err (JsError "Error"
                   ("Failed to get mock metadata: " +:+ modulePath +:+
                    newline +:+ newline +:+
                    "See: http://facebook.github.io/jest/docs/manual-mocks.html#content"))
              st_c
        end
    | Err e st_b => Err e st_b
    | OutOfFuel => OutOfFuel
    end.
Proof.
  intros Hres Hc.
  assert (Hregs : _mockRegistry st_r = _mockRegistry st ∧
                  _moduleRegistry st_r = _moduleRegistry st).
  { pose proof (resolveModule_effect W from (Some name) st) as HR.
    rewrite Hres in HR. by destruct HR as [tr ->]. }
  destruct Hregs as [Hk Hd].
  unfold _generateMock. rewrite (bind_Ret _ _ _ _ _ Hres).
  unfold bind at 1, get at 1. rewrite Hc.
  unfold bind, get, ret, modify, throw, new_object, new_mockRegistry,
    new_moduleRegistry, fresh. cbn. rewrite Hk, Hd.
  match goal with |- context [requireModule W rec from (Some name) ?s] =>
    change s with (isolated W modulePath st_r)
  end.
  destruct (requireModule W rec from (Some name) (isolated W modulePath st_r))
    as [moduleExports st_b|e st_b|]; [|done..].
  cbn. destruct (getMetadata W (heap st_b) moduleExports) as [md|]; [|done].
  cbn. by rewrite lookup_insert_eq.
Qed.

Lemma respects_Ret {A} P (m : M A) st0 st a st' :
  respects P m → P st0 st → m st = Ret a st' → P st0 st'.
Proof.
  intros Hm HP Hr. specialize (Hm st0 st HP). unfold ends in Hm.
  by rewrite Hr in Hm.
Qed.

Lemma registries_kept_refl st : registries_kept st st.
Proof. by repeat split. Qed.

Lemma new_object_kept o : respects registries_kept (new_object o).
Proof.
  intros st0 st (? & ? & ? & ?). unfold ends, new_object, fresh, bind, modify, ret.
  by repeat split.
Qed.

#[export] Hint Resolve new_object_kept : respects.

Lemma build_kept sh : respects registries_kept (build sh).
Proof.
  induction sh as [v| |members IH] using Shape_members_ind;
    intros st0 st H; cbn [build]; [by repeat ends_step..|].
  ends_step; [|by repeat ends_step].
  clear -IH H. revert st H.
  induction IH as [|[key sh'] ms Hsh _ IHms]; intros st H; [by repeat ends_step|].
  ends_step; [by apply Hsh|]. ends_step; [by apply IHms|]. by repeat ends_step.
Qed.

Lemma generateFromMetadata_kept md st :
  match generateFromMetadata md st with
  | Ret _ st' | Err _ st' => registries_kept st st'
  | OutOfFuel => True
  end.
Proof.
  destruct md as [sh|]; [|apply registries_kept_refl].
  apply (build_kept sh st st (registries_kept_refl st)).
Qed.

Lemma registries_kept_as_before st st' :
  registries_kept st st' → registries_as_before st st'.
Proof.
  intros (Hk & Hd & Hks & Hds). unfold registries_as_before, mockRegistry_of,
    moduleRegistry_of. by rewrite Hk, Hd, Hks, Hds.
Qed.

Lemma registries_as_before_kept st st1 st2 :
  registries_as_before st st1 → registries_kept st1 st2 →
  registries_as_before st st2.
Proof.
  intros (? & ? & ? & ?) (Hk & Hd & Hks & Hds).
  unfold registries_as_before, mockRegistry_of, moduleRegistry_of in *.
  rewrite Hk, Hd, Hks, Hds. by repeat split.
Qed.

Lemma isolated_fields W modulePath st :
  next_loc (isolated W modulePath st) = S (S (S (next_loc st))) ∧
  _mockRegistry (isolated W modulePath st) = S (next_loc st) ∧
  _moduleRegistry (isolated W modulePath st) = S (S (next_loc st)) ∧
  mockRegistries (isolated W modulePath st)
    = <[S (next_loc st) := ∅]> (mockRegistries st) ∧
  moduleRegistries (isolated W modulePath st)
    = <[S (S (next_loc st)) := ∅]> (moduleRegistries st).
Proof. by repeat split. Qed.

(** Once the isolated execution has returned and the saved registries are
    put back, the caller's registries are as they were. *)
Lemma isolated_restored W modulePath st st_b :
  _mockRegistry st < next_loc st →
  _moduleRegistry st < next_loc st →
  frame (isolated W modulePath st) st_b →
  registries_as_before st
    (set_moduleRegistry (_moduleRegistry st) (set_mockRegistry (_mockRegistry st) st_b)).
Proof.
  intros Hwk Hwd Hfr.
  destruct (isolated_fields W modulePath st) as (Hn & Hk & Hd & Hks & Hds).
  assert (Hmock : mockRegistries st_b !! _mockRegistry st
                  = mockRegistries st !! _mockRegistry st).
  { rewrite (frame_mock _ _ Hfr); rewrite ?Hn, ?Hk, ?Hks; [|lia..].
    by rewrite lookup_insert_ne by lia. }
  assert (Hmodule : moduleRegistries st_b !! _moduleRegistry st
                    = moduleRegistries st !! _moduleRegistry st).
  { rewrite (frame_module _ _ Hfr); rewrite ?Hn, ?Hd, ?Hds; [|lia..].
    by rewrite lookup_insert_ne by lia. }
  split; [reflexivity|]. split; [reflexivity|].
  unfold mockRegistry_of, moduleRegistry_of.
  change (_mockRegistry (set_moduleRegistry (_moduleRegistry st)
            (set_mockRegistry (_mockRegistry st) st_b))) with (_mockRegistry st).
  change (_moduleRegistry (set_moduleRegistry (_moduleRegistry st)
            (set_mockRegistry (_mockRegistry st) st_b))) with (_moduleRegistry st).
  change (mockRegistries (set_moduleRegistry (_moduleRegistry st)
            (set_mockRegistry (_mockRegistry st) st_b))) with (mockRegistries st_b).
  change (moduleRegistries (set_moduleRegistry (_moduleRegistry st)
            (set_mockRegistry (_mockRegistry st) st_b))) with (moduleRegistries st_b).
  by rewrite Hmock, Hmodule.
Qed.

(** C6, as the code has it.  On every exit of [_generateMock] but one, the
    caller's module registry and mock registry are the objects they were,
    with the contents they had: when the mock is returned, when resolution
    fails, when no metadata can be extracted.  The exception is an
    exception raised by the isolated [requireModule]: it propagates with the
    fresh registries still installed. *)
Theorem generateMock_isolation W n from name st :
  _mockRegistry st < next_loc st →
  _moduleRegistry st < next_loc st →
  match _generateMock W (calls W n) from name st with
  | Ret _ st' => registries_as_before st st'
  | Err e st' =>
      registries_as_before st st' ∨
      ∃ modulePath st_r,
        _resolveModule W from (Some name) st = Ret modulePath st_r ∧
        _mockMetaDataCache st_r !! modulePath = None ∧
        requireModule W (calls W n) from (Some name) (isolated W modulePath st_r)
          = Err e st'
  | OutOfFuel => True
  end.
Proof.
  intros Hwk Hwd.
  pose proof (resolveModule_effect W from (Some name) st) as HR.
  destruct (_resolveModule W from (Some name) st) as [modulePath st_r|e st_r|] eqn:Hres;
    [| |done].
  2:{ unfold _generateMock. rewrite (bind_Err _ _ _ _ _ Hres).
      left. destruct HR as [tr ->]. by apply registries_kept_as_before. }
  destruct HR as [tr Hst_r].
  assert (Hr : registries_kept st st_r) by (by subst st_r).
  assert (Hrb : registries_as_before st st_r) by (by apply registries_kept_as_before).
  destruct (_mockMetaDataCache st_r !! modulePath) as [md|] eqn:Hc.
  { rewrite (generateMock_cached W _ from name st modulePath st_r md) by done.
    pose proof (generateFromMetadata_kept md st_r) as Hg.
    destruct (generateFromMetadata md st_r) as [v st'|e st'|]; [..|done];
      [|left]; by apply (registries_as_before_kept st st_r). }
  rewrite (generateMock_uncached W _ from name st modulePath st_r) by done.
  destruct (requireModule W (calls W n) from (Some name) (isolated W modulePath st_r))
    as [moduleExports st_b|e st_b|] eqn:Hiso; [| |done].
  2:{ right. by exists modulePath, st_r. }
  pose proof (respects_Ret frame _ _ _ _ _
                (requireModule_frame W (calls W n) (calls_frame W n) from (Some name))
                (frame_refl _) Hiso) as Hfr.
  assert (Hc' : registries_as_before st
                  (set_moduleRegistry (_moduleRegistry st)
                     (set_mockRegistry (_mockRegistry st) st_b))).
  { subst st_r.
    exact (isolated_restored W modulePath (set_fsTrace tr st) st_b Hwk Hwd Hfr). }
  cbv zeta.
  set (st_c := set_moduleRegistry _ _) in *.
  destruct (getMetadata W (heap st_c) moduleExports) as [md|]; [|by left].
  match goal with |- context [generateFromMetadata ?m ?s] =>
    pose proof (generateFromMetadata_kept m s) as Hg;
    destruct (generateFromMetadata m s) as [v st'|e st'|]
  end; [..|done]; [|left];
    (eapply registries_as_before_kept; [|exact Hg]);
    (eapply registries_as_before_kept; [exact Hc'|by repeat split]).
Qed.

Lemma generateMock_isolation_witness :
  let W := automock_world in
  let st := automock_state in
  _mockRegistry st < next_loc st ∧
  _moduleRegistry st < next_loc st ∧
  moduleRegistry_of st !! "/t/ok.js" = Some 6 ∧
  ∃ v st',
    _generateMock W (calls W 0) "/t/x.js" "./u" st = Ret v st' ∧
    registries_as_before st st'.
Proof.
  intros W st.
  assert (H1 : _mockRegistry st < next_loc st) by (vm_compute; lia).
  assert (H2 : _moduleRegistry st < next_loc st) by (vm_compute; lia).
  split; [exact H1|]. split; [exact H2|]. split; [vm_compute; reflexivity|].
  pose proof (generateMock_isolation W 0 "/t/x.js" "./u" st H1 H2) as H.
  assert (Hrun : _generateMock W (calls W 0) "/t/x.js" "./u" st
                 = Ret (VObj 15)
                     (state_after (_generateMock W (calls W 0) "/t/x.js" "./u" st) st))
    by (vm_compute; reflexivity).
  rewrite Hrun in H. eexists _, _. split; [exact Hrun|exact H].
Defined.

(** When the body of the module to be mocked throws, the exception leaves
    [_generateMock] with the fresh registries installed: the caller's module
    registry, which had [./ok] in it, is no longer the runtime's. *)
Lemma generateMock_throw_keeps_isolated_registries :
  let W := automock_world in
  let st := automock_state in
  moduleRegistry_of st !! "/t/ok.js" = Some 6 ∧
  ∃ st',
    _generateMock W (calls W 0) "/t/x.js" "./throws" st
      = Err (JsError "Error" "boom") st' ∧
    moduleRegistry_of st' !! "/t/ok.js" = None ∧
    _moduleRegistry st' ≠ _moduleRegistry st ∧
    _mockRegistry st' ≠ _mockRegistry st.
Proof.
  split; [vm_compute; reflexivity|].
  eexists. split; [vm_compute; reflexivity|].
  split; [vm_compute; reflexivity|]. split; vm_compute; lia.
Qed.

(** *** Registry reset, in full *)

Lemma resetModuleRegistry_effect W st :
  ∃ h,
    resetModuleRegistry W st =
      Ret tt
        (set_heap h
           (set_moduleRegistry (S (next_loc st))
              (set_moduleRegistries (<[S (next_loc st) := ∅]> (moduleRegistries st))
                 (set_next_loc (S (S (next_loc st)))
                    (set_mockRegistry (next_loc st)
                       (set_mockRegistries (<[next_loc st := ∅]> (mockRegistries st))
                          (set_next_loc (S (next_loc st)) st))))))).
Proof.
  unfold resetModuleRegistry, new_mockRegistry, new_moduleRegistry, fresh,
    bind, modify, get, ret. cbn.
  match goal with |- context [match ?x with Some _ => _ | None => _ end] =>
    destruct x as [envGlobal|]
  end.
  - cbn. match goal with |- context [if ?b then _ else _] => destruct b end;
      by eexists.
  - eexists. cbn. f_equal.
Qed.

(** *** Consecutive requires *)

Lemma requireModule_target_effect W from name st t st_t :
  requireModule_target W from name st = Ret t st_t →
  ∃ c tr, st_t = set_normalizedIDCache c (set_fsTrace tr st).
Proof.
  unfold requireModule_target. intros H.
  apply bind_returns in H as (id & st0 & Hid & H).
  apply normalizeID_keeps in Hid as (c & tr & ->).
  unfold bind at 1, get at 1 in H.
  repeat case_match;
    first
      [ apply Ret_inj in H as [_ <-]; by eexists _, _
      | apply bind_returns in H as (p & st2 & Hres & H);
        apply Ret_inj in H as [_ <-];
        match type of Hres with
        | _resolveModule _ _ ?n ?s = _ =>
            pose proof (resolveModule_effect W from n s) as HR
        end;
        rewrite Hres in HR; destruct HR as [tr' ->]; by eexists _, _ ].
Qed.

Lemma requireModule_deliver_returns modulePath st v st' :
  requireModule_deliver modulePath st = Ret v st' →
  st' = st ∧
  ∃ localModule m,
    moduleRegistry_of st !! modulePath = Some localModule ∧
    modules st !! localModule = Some m ∧
    exports m = v.
Proof.
  unfold requireModule_deliver, bind at 1, get at 1.
  destruct (moduleRegistry_of st !! modulePath) as [l|]; [|done].
  unfold read_module, bind, get, throw, ret.
  destruct (modules st !! l) as [m|] eqn:Hm; cbn; [|done].
  intros [<- <-]%Ret_inj. split; [done|]. by exists l, m.
Qed.

Lemma requireModule_load_returns W rec modulePath st v st' :
  requireModule_load W rec modulePath st = Ret v st' →
  ∃ localModule m,
    moduleRegistry_of st' !! modulePath = Some localModule ∧
    modules st' !! localModule = Some m ∧
    exports m = v.
Proof.
  unfold requireModule_load. intros H.
  apply bind_returns in H as (? & ? & _ & H).
  apply bind_returns in H as (? & st1 & _ & H).
  by apply requireModule_deliver_returns in H as [-> ?].
Qed.

Lemma requireModule_at W rec from name st modulePath st_t :
  requireModule_target W from name st = Ret (ModulePath modulePath) st_t →
  requireModule W rec from name st = requireModule_load W rec modulePath st_t.
Proof. intros H. unfold requireModule. by rewrite (bind_Ret _ _ _ _ _ H). Qed.

(** C4, as the code has it.  When a [(from, specifier)] pair selects a file
    and [requireModule] returns [v] for it, a second call that selects the
    same file returns [v] from the registry without executing anything.
    After a [resetModuleRegistry] the path has no entry: the next call
    registers a new record with a newly allocated exports object and
    executes the module again; what it returns is that new object, distinct
    from every earlier reference, as long as the path still maps to the new
    record and [module.exports] has not been reassigned when the body
    ends. *)
Theorem requireModule_cache W rec rec' from name st modulePath st_t v st1 :
  requireModule_target W from name st = Ret (ModulePath modulePath) st_t →
  requireModule W rec from name st = Ret v st1 →
  (∀ st1_t,
     requireModule_target W from name st1 = Ret (ModulePath modulePath) st1_t →
     requireModule W rec' from name st1 = Ret v st1_t) ∧
  (∀ st_r st_rt,
     resetModuleRegistry W st1 = Ret tt st_r →
     requireModule_target W from name st_r = Ret (ModulePath modulePath) st_rt →
     path_extname W modulePath ≠ ".json" →
     path_extname W modulePath ≠ ".node" →
     requireModule W rec' from name st_r =
       (_execModule W rec' (S (next_loc st_rt)) ;; requireModule_deliver modulePath)
         (with_placeholder modulePath st_rt) ∧
     ∀ v2 st2 m2,
       requireModule W rec' from name st_r = Ret v2 st2 →
       moduleRegistry_of st2 !! modulePath = Some (S (next_loc st_rt)) →
       modules st2 !! S (next_loc st_rt) = Some m2 →
       exports m2 = VObj (next_loc st_rt) →
       v2 = VObj (next_loc st_rt) ∧ ∀ l, l < next_loc st1 → v2 ≠ VObj l).
Proof.
  intros Ht Hcall. rewrite (requireModule_at _ _ _ _ _ _ _ Ht) in Hcall.
  apply requireModule_load_returns in Hcall as (l & m & Hreg & Hm & <-).
  split.
  - intros st1_t Ht1. rewrite (requireModule_at _ _ _ _ _ _ _ Ht1).
    apply requireModule_target_effect in Ht1 as (c & tr & ->).
    by apply (requireModule_load_hit W rec' modulePath _ l m).
  - intros st_r st_rt Hreset Htr Hjson Hnode.
    rewrite (requireModule_at _ _ _ _ _ _ _ Htr).
    destruct (resetModuleRegistry_effect W st1) as [h Hr].
    rewrite Hr in Hreset. apply Ret_inj in Hreset as [_ <-].
    apply requireModule_target_effect in Htr as (c & tr & ->).
    assert (Hnone : moduleRegistry_of
              (set_normalizedIDCache c (set_fsTrace tr
                 (set_heap h
                    (set_moduleRegistry (S (next_loc st1))
                       (set_moduleRegistries
                          (<[S (next_loc st1) := ∅]> (moduleRegistries st1))
                          (set_next_loc (S (S (next_loc st1)))
                             (set_mockRegistry (next_loc st1)
                                (set_mockRegistries
                                   (<[next_loc st1 := ∅]> (mockRegistries st1))
                                   (set_next_loc (S (next_loc st1)) st1)))))))))
              !! modulePath = None).
    { unfold moduleRegistry_of. cbn. by rewrite lookup_insert_eq. }
    split; [by apply requireModule_load_missing|].
    intros v2 st2 m2 Hcall2 Hreg2 Hm2 Hexp.
    apply requireModule_load_returns in Hcall2 as (l2 & m' & Hreg' & Hm' & <-).
    pose proof (eq_trans (eq_sym Hreg') Hreg2) as [= ->].
    pose proof (eq_trans (eq_sym Hm') Hm2) as [= ->].
    split; [done|]. rewrite Hexp. cbn. intros l' Hl' [= Heq]. lia.
Qed.

Lemma requireModule_cache_witness :
  let W := cycle_world in
  let st := new_Runtime W in
  let st1 := state_after (requireModule W (calls W 2) "/t/a.js" None st) st in
  let st2 := state_after (requireModule_target W "/t/a.js" None st1) st1 in
  requireModule W (calls W 2) "/t/a.js" None st = Ret (VObj 5) st1 ∧
  requireModule W (calls W 0) "/t/a.js" None st1 = Ret (VObj 5) st2.
Proof.
  intros W st st1 st2.
  assert (H1 : requireModule W (calls W 2) "/t/a.js" None st = Ret (VObj 5) st1)
    by (vm_compute; reflexivity).
  split; [exact H1|].
  refine (proj1 (requireModule_cache W (calls W 2) (calls W 0) "/t/a.js" None st
                   "/t/a.js" (state_after (requireModule_target W "/t/a.js" None st) st)
                   (VObj 5) st1 _ H1) st2 _).
  - vm_compute. reflexivity.
  - vm_compute. reflexivity.
Defined.

(** Two ways the cache law fails in general.  A module that exports an object
    kept on the sandbox global returns the same reference after a reset.
    And a package that exists only through its manual mock, whose body
    unmocks the package, is delivered from the manual mock by the first
    [requireModule] and from [node_modules] by the second. *)
Lemma requireModule_cache_counterexamples :
  (let W := singleton_world in
   let require := requireModule W (calls W 0) "/t/x.js" (Some "./g") in
   ∃ shared st',
     (let* first := require in
      resetModuleRegistry W ;;
      let* second := require in
      ret (first, second)) (new_Runtime W) = Ret (VObj shared, VObj shared) st') ∧
  (let W := ghost_world in
   let require := requireModule W (calls W 0) "/t/x.js" (Some "X") in
   ∃ first second st',
     (let* first := require in
      let* second := require in
      ret (first, second)) (new_Runtime W) = Ret (VObj first, VObj second) st' ∧
     first ≠ second).
Proof.
  split.
  - eexists _, _. vm_compute. reflexivity.
  - eexists _, _, _. split; [vm_compute; reflexivity|]. vm_compute. lia.
Qed.
